(** * Web search adapter ([src/lib/ai/tools/web/web-search.ts])

  A shallow embedding of the Tavily-backed search / contents tools that
  answer in the legacy Exa response shape, followed by the properties the
  specification states about them.

  Conventions of the embedding
  - a JavaScript [string] that the code copies, compares, searches or
    concatenates is a [string]; one that it measures or cuts ([content],
    [raw_content], [text]) is the list of its UTF-16 code units, which is
    what [length] and [substring] count; [undefined] / an absent optional
    field is [None];
  - a JavaScript [number] used as a count ([numResults], [maxCharacters],
    the HTTP status) is a [Z]; a [number] that is only copied through
    ([score], [response_time]) is a [Q];
  - an [async] function is a function from the world before the call to a
    settled promise (fulfilled or rejected) and the world after it;
  - the world holds the current [process.env], the log of outbound HTTP
    requests, in the order they are sent, and the lines given to
    [console.error], as a multiset: the order of these depends on how the
    callbacks of [Promise.all] interleave;
  - what lies outside the file (the network behind [fetch], the WHATWG
    URL parser behind [new URL]) is a variable of the section. *)

From Stdlib Require Import QArith.
From stdpp Require Import base option list strings gmap gmultiset pretty.

Set Default Proof Using "Type".
Open Scope Z_scope.
Open Scope string_scope.

(** ** JavaScript values and operators used by the file *)

Module Js.

(** An [Error] object; only [message] is ever read by the file. *)
Record Error := mkError { name : string; message : string }.

(** [new Error(msg)] *)
Definition new_Error (msg : string) : Error :=
  {| name := "Error"; message := msg |}.

Global Instance Error_eq_dec : EqDecision Error.
Proof. solve_decision. Defined.

Global Instance Error_countable : Countable Error.
Proof.
  apply (inj_countable' (fun e => (name e, message e))
           (fun p => {| name := fst p; message := snd p |})).
  by intros [].
Defined.

(** A UTF-16 code unit (a number below 65536; nothing below depends on
    the bound), and a string as the list of its code units. *)
Definition code_unit : Type := N.

Definition utf16 : Type := list code_unit.

(** The code units of a string written with ASCII characters only: one
    for each character. *)
Definition of_ascii (s : string) : utf16 :=
  Ascii.N_of_ascii <$> String.list_ascii_of_string s.

(** Truthiness of a string, and of an optional string. *)
Definition truthy (s : string) : bool := negb (s =? "")%string.

Definition truthy_opt (o : option string) : bool :=
  match o with
  | Some s => truthy s
  | None => false
  end.

(** [x || d] where [x : string | undefined] and [d : string]. *)
Definition or_string (x : option string) (d : string) : string :=
  match x with
  | Some s => if truthy s then s else d
  | None => d
  end.

(** [x || d] on strings given by their code units: the empty string is
    falsy. *)
Definition or_utf16 (x : option utf16) (d : utf16) : utf16 :=
  match x with
  | Some (c :: s) => c :: s
  | _ => d
  end.

(** [x || d] where [x : number | undefined]: [0] is falsy. *)
Definition or_number (x : option Z) (d : Z) : Z :=
  match x with
  | Some n => if (n =? 0)%Z then d else n
  | None => d
  end.

(** [xs.includes(x)] on an array of strings. *)
Definition array_includes (xs : list string) (x : string) : bool :=
  existsb (String.eqb x) xs.

(** [xs?.length] used as a condition: a present, non-empty array. *)
Definition has_length {A} (xs : option (list A)) : bool :=
  match xs with
  | Some (_ :: _) => true
  | _ => false
  end.

(** [hay.includes(needle)] *)
Fixpoint includes (hay needle : string) : bool :=
  String.prefix needle hay ||
  match hay with
  | EmptyString => false
  | String _ hay' => includes hay' needle
  end.

(** [s.substring(start, end)]: the indices count code units; both are
    clamped to [0 .. s.length] and swapped when [start > end]. *)
Definition substring (s : utf16) (start end_ : Z) : utf16 :=
  let len := Z.of_nat (length s) in
  let a := Z.max 0 (Z.min start len) in
  let b := Z.max 0 (Z.min end_ len) in
  let lo := Z.min a b in
  let hi := Z.max a b in
  take (Z.to_nat (hi - lo)) (drop (Z.to_nat lo) s).

(** A settled promise (or the completion of a [try] block). *)
Inductive settled (A : Type) : Type :=
| Fulfilled (a : A)
| Rejected (e : Error).
Global Arguments Fulfilled {A} a.
Global Arguments Rejected {A} e.

End Js.

(** ** Tavily API types (lines 6-49) *)

Inductive SearchDepth := basic | advanced.
Inductive Topic := general | news | finance.
Inductive TimeRange := year | month | week | day.

Module TavilySearchRequest.
Record t := mk {
  query : string;
  search_depth : option SearchDepth;
  topic : option Topic;
  max_results : option Z;
  include_answer : option bool;
  include_images : option bool;
  include_image_descriptions : option bool;
  include_raw_content : option bool;
  include_domains : option (list string);
  exclude_domains : option (list string);
  time_range : option TimeRange;
  country : option string;
  start_date : option string;
  end_date : option string;
  max_tokens : option Z;
  chunks_per_source : option Z;
  include_favicon : option bool;
}.
End TavilySearchRequest.

Module TavilySearchResult.
Record t := mk {
  title : string;
  url : string;
  content : Js.utf16;
  score : Q;
  published_date : option string;
  raw_content : option Js.utf16;
  favicon : option string;
}.
End TavilySearchResult.

Module TavilyImageResult.
Record t := mk {
  url : string;
  description : option string;
}.
End TavilyImageResult.

(** An element of [images?: TavilyImageResult[] | string[]]. *)
Inductive ImageItem :=
| ImageString (s : string)
| ImageObject (o : TavilyImageResult.t).

Module TavilySearchResponse.
Record t := mk {
  query : string;
  results : list TavilySearchResult.t;
  answer : option string;
  images : option (list ImageItem);
  response_time : Q;
  request_id : string;
}.
End TavilySearchResponse.

(** ** Legacy (Exa) response types (lines 51-69) *)

Module ExaSearchResult.
Record t := mk {
  id : string;
  title : string;
  url : string;
  publishedDate : string;
  author : string;
  text : Js.utf16;
  image : option string;
  favicon : option string;
  score : option Q;
}.
End ExaSearchResult.

Module ExaSearchResponse.
Record t := mk {
  requestId : string;
  autopromptString : string;
  resolvedSearchType : string;
  results : list ExaSearchResult.t;
}.
End ExaSearchResponse.

(** ** Tool inputs, as the two JSON schemas shape them (lines 71-166) *)

Module SearchParams.
Record t := mk {
  query : string;
  numResults : option Z;
  type : option string;
  category : option string;
  includeDomains : option (list string);
  excludeDomains : option (list string);
  startPublishedDate : option string;
  endPublishedDate : option string;
  maxCharacters : option Z;
}.
End SearchParams.

(** What the file reads of a [URL] object. *)
Module URL.
Record t := mk {
  hostname : string;
  pathname : string;
}.
End URL.

Module ContentsParams.
Record t := mk {
  urls : list string;
  maxCharacters : option Z;
  livecrawl : option string;
}.
End ContentsParams.

(** ** The world an [async] function runs in *)

Module Http.
(** The [RequestInit] handed to [fetch], with the body before
    [JSON.stringify] (which drops the absent fields). *)
Record Request := mkRequest {
  url : string;
  method : string;
  headers : list (string * string);
  body : TavilySearchRequest.t;
}.

(** What the file reads of a [Response]: [text] is [None] when reading
    the body rejects, [json] is the parsed body or the rejection. *)
Record Response := mkResponse {
  status : Z;
  statusText : string;
  text : option string;
  json : Js.settled TavilySearchResponse.t;
}.

(** [response.ok]: the status is in the range 200-299. *)
Definition ok (r : Response) : bool :=
  (200 <=? status r)%Z && (status r <=? 299)%Z.
End Http.

Record World := mkWorld {
  process_env : gmap string string;
  calls : list Http.Request;
  console : gmultiset (string * Js.Error);
}.

Definition Async (A : Type) : Type := World -> Js.settled A * World.

Definition ret {A} (a : A) : Async A := fun w => (Js.Fulfilled a, w).

Definition throw {A} (e : Js.Error) : Async A := fun w => (Js.Rejected e, w).

Definition bind {A B} (m : Async A) (k : A -> Async B) : Async B :=
  fun w =>
    match m w with
    | (Js.Fulfilled a, w') => k a w'
    | (Js.Rejected e, w') => (Js.Rejected e, w')
    end.

Notation "'let*' x ':=' m 'in' k" := (bind m (fun x => k))
  (at level 10, x name, m at level 100, k at level 200).

(** [try { body } catch (error) { handler }] *)
Definition try_catch {A} (body : Async A) (handler : Js.Error -> Async A)
  : Async A :=
  fun w =>
    match body w with
    | (Js.Fulfilled a, w') => (Js.Fulfilled a, w')
    | (Js.Rejected e, w') => handler e w'
    end.

(** A synchronous completion or an already settled promise, awaited. *)
Definition await {A} (p : Js.settled A) : Async A := fun w => (p, w).

(** [console.error(msg, error)] *)
Definition console_error (msg : string) (e : Js.Error) : Async unit :=
  fun w =>
    (Js.Fulfilled tt,
     {| process_env := process_env w;
        calls := calls w;
        console := console w ⊎ {[+ (msg, e) +]} |}).

(** [await Promise.all(xs.map(async (x) => f x))].  Every callback is
    started, in list order and each up to its first [await], so the
    requests leave in list order; the callbacks share no variable and
    every request is answered independently of the others, so running
    them one after the other gives the array [Promise.all] resolves to
    and the requests in the order they are sent.  What the callbacks do
    after their first [await] interleaves as the answers come in: that
    order shows only in the lines given to [console.error], which the
    world keeps without an order.  When a callback rejects the whole
    rejects, the others having run all the same. *)
Fixpoint promise_all_map {A B} (f : A -> Async B) (xs : list A)
  : Async (list B) :=
  match xs with
  | [] => ret []
  | x :: xs' =>
      fun w =>
        let (p, w1) := f x w in
        let (ps, w2) := promise_all_map f xs' w1 in
        (match p, ps with
         | Js.Fulfilled y, Js.Fulfilled ys => Js.Fulfilled (y :: ys)
         | Js.Rejected e, _ => Js.Rejected e
         | Js.Fulfilled _, Js.Rejected e => Js.Rejected e
         end, w2)
  end.

(** ** Outputs of the tools *)

(** [{ results: ... }] of the contents tools. *)
Record ExaContentsResponse := mkContents {
  contents_results : list ExaSearchResult.t;
}.

(** [{ ...result, guide }] of the interactive search tool. *)
Record GuidedSearchResponse := mkGuided {
  spread : ExaSearchResponse.t;
  guide : string;
}.

(** [{ isError, error, solution }] *)
Record ErrorPayload := mkErrorPayload {
  isError : bool;
  error : string;
  solution : string;
}.

(** The value an interactive tool resolves to: what its [safe] body
    returned, or what its [ifFail] handler returned. *)
Inductive ToolOutput (A : Type) : Type :=
| Success (a : A)
| Failure (p : ErrorPayload).
Global Arguments Success {A} a.
Global Arguments Failure {A} p.

(** ** [ts-safe]: [safe(fn).ifFail(handler).unwrap()]

    The library is imported, not part of the file: [safe] runs the function
    and holds its outcome, [ifFail] replaces a failure by the value its
    handler returns, [unwrap] gives the held value back or raises the held
    failure. *)
Module TsSafe.
Definition safe {A} (fn : Async A) : Async A := fn.

Definition ifFail {A} (handler : Js.Error -> A) (s : Async A) : Async A :=
  fun w =>
    match s w with
    | (Js.Fulfilled a, w') => (Js.Fulfilled a, w')
    | (Js.Rejected e, w') => (Js.Fulfilled (handler e), w')
    end.

Definition unwrap {A} (s : Async A) : Async A := s.
End TsSafe.

(** ** What a computation does to the world

    [emits m a reqs logs]: from any world, [m] settles as [a], having sent
    the requests [reqs], in this order, and logged the lines [logs], in
    some order; it reads nothing of the world and changes nothing else of
    it. *)

Definition after (w : World) (reqs : list Http.Request)
    (logs : list (string * Js.Error)) : World :=
  {| process_env := process_env w;
     calls := calls w ++ reqs;
     console := console w ⊎ list_to_set_disj logs |}.

Definition emits {A} (m : Async A) (a : Js.settled A)
    (reqs : list Http.Request) (logs : list (string * Js.Error)) : Prop :=
  forall w, m w = (a, after w reqs logs).

(** The outcome, the requests and the log of a computation run by itself,
    from a world where nothing has happened yet. *)
Definition blank : World := mkWorld ∅ [] ∅.

Definition outcome_of {A} (m : Async A) : Js.settled A := fst (m blank).

Definition requests_of {A} (m : Async A) : list Http.Request :=
  calls (snd (m blank)).

Definition logs_of {A} (m : Async A) : gmultiset (string * Js.Error) :=
  console (snd (m blank)).

(** The entry a per-URL callback contributes when run by itself. *)
Definition alone {A} (m : Async (option A)) : option A :=
  match outcome_of m with
  | Js.Fulfilled o => o
  | Js.Rejected _ => None
  end.

(** ** The adapter (lines 168-481) *)

Section WebSearch.

(** [process.env] as it was when the module was evaluated. *)
Variable load_env : gmap string string.

(** The network behind [fetch]: the response, or the rejection, a request
    meets. *)
Variable fetch : Http.Request -> Js.settled Http.Response.

(** [new URL(url)]: the parsed URL, or the [TypeError] it throws. *)
Variable new_URL : string -> Js.settled URL.t.

(** [const API_KEY = process.env.TAVILY_API_KEY;] (line 168) *)
Definition API_KEY : option string := load_env !! "TAVILY_API_KEY".

Definition BASE_URL : string := "https://api.tavily.com".

(** [await fetch(url, init)]: the request is logged, then answered. *)
Definition await_fetch (req : Http.Request) : Async Http.Response :=
  fun w =>
    (fetch req,
     {| process_env := process_env w;
        calls := calls w ++ [req];
        console := console w |}).

(** [fetchTavily] (lines 171-200) *)
Definition fetchTavily (endpoint : string) (body : TavilySearchRequest.t)
  : Async TavilySearchResponse.t :=
  match API_KEY with
  | Some key =>
      if Js.truthy key then
        let* response :=
          await_fetch
            {| Http.url := BASE_URL +:+ endpoint;
               Http.method := "POST";
               Http.headers :=
                 [("Content-Type", "application/json"); ("api-key", key)];
               Http.body := body |} in
        if (Http.status response =? 401)%Z then
          throw (Js.new_Error "Invalid Tavily API key")
        else if (Http.status response =? 429)%Z then
          throw (Js.new_Error "Tavily API usage limit exceeded")
        else if negb (Http.ok response) then
          (* [await response.text().catch(() => "")] *)
          let errorText := default "" (Http.text response) in
          throw
            (Js.new_Error
               ("Tavily API error: " +:+ pretty (Http.status response)
                +:+ " " +:+ Http.statusText response
                +:+ (if Js.truthy errorText
                     then " - " +:+ errorText else "")))
        else await (Http.json response)
      else throw (Js.new_Error "TAVILY_API_KEY is not configured")
  | None => throw (Js.new_Error "TAVILY_API_KEY is not configured")
  end.

(** The image of the result at [index] (lines 211-220). *)
Definition imageUrl (tavilyResponse : TavilySearchResponse.t) (index : nat)
  : option string :=
  match TavilySearchResponse.images tavilyResponse with
  | Some images =>
      if (0 <? length images)%nat then
        match images !! index with
        | Some (ImageString s) => Some s
        | Some (ImageObject o) =>
            if Js.truthy (TavilyImageResult.url o)
            then Some (TavilyImageResult.url o) else None
        | None => None
        end
      else None
  | None => None
  end.

(** [transformTavilyToExaFormat] (lines 203-235) *)
Definition transformTavilyToExaFormat
    (tavilyResponse : TavilySearchResponse.t) : ExaSearchResponse.t :=
  {| ExaSearchResponse.requestId :=
       TavilySearchResponse.request_id tavilyResponse;
     ExaSearchResponse.autopromptString :=
       Js.or_string (TavilySearchResponse.answer tavilyResponse) "";
     ExaSearchResponse.resolvedSearchType := "neural";
     ExaSearchResponse.results :=
       imap
         (fun index result =>
            {| ExaSearchResult.id := TavilySearchResult.url result;
               ExaSearchResult.title := TavilySearchResult.title result;
               ExaSearchResult.url := TavilySearchResult.url result;
               ExaSearchResult.publishedDate :=
                 Js.or_string (TavilySearchResult.published_date result) "";
               ExaSearchResult.author := "";
               ExaSearchResult.text := TavilySearchResult.content result;
               ExaSearchResult.image := imageUrl tavilyResponse index;
               ExaSearchResult.favicon := TavilySearchResult.favicon result;
               ExaSearchResult.score :=
                 Some (TavilySearchResult.score result) |})
         (TavilySearchResponse.results tavilyResponse) |}.

(** [normalizedType] (lines 243-246, and again 354-357) *)
Definition normalizedType (params : SearchParams.t) : string :=
  match SearchParams.type params with
  | Some ty =>
      if Js.truthy ty && Js.array_includes ["auto"; "keyword"; "neural"] ty
      then ty else "auto"
  | None => "auto"
  end.

(** [searchRequest] once the optional fields are added (lines 248-279,
    and again 359-390: the two search tools build it with the same
    statements). *)
Definition searchRequest (params : SearchParams.t) : TavilySearchRequest.t :=
  {| TavilySearchRequest.query := SearchParams.query params;
     TavilySearchRequest.search_depth :=
       Some (if (normalizedType params =? "neural")%string then advanced
             else if (normalizedType params =? "keyword")%string then basic
             else basic);
     TavilySearchRequest.max_results :=
       Some (Js.or_number (SearchParams.numResults params) 5);
     TavilySearchRequest.include_answer := Some false;
     TavilySearchRequest.include_images := Some true;
     TavilySearchRequest.include_image_descriptions := Some false;
     TavilySearchRequest.include_raw_content := Some false;
     TavilySearchRequest.include_favicon := Some true;
     TavilySearchRequest.topic :=
       match SearchParams.category params with
       | Some c => if (c =? "news")%string then Some news else None
       | None => None
       end;
     TavilySearchRequest.include_domains :=
       if Js.has_length (SearchParams.includeDomains params)
       then SearchParams.includeDomains params else None;
     TavilySearchRequest.exclude_domains :=
       if Js.has_length (SearchParams.excludeDomains params)
       then SearchParams.excludeDomains params else None;
     TavilySearchRequest.start_date :=
       if Js.truthy_opt (SearchParams.startPublishedDate params)
       then SearchParams.startPublishedDate params else None;
     TavilySearchRequest.end_date :=
       if Js.truthy_opt (SearchParams.endPublishedDate params)
       then SearchParams.endPublishedDate params else None;
     TavilySearchRequest.time_range := None;
     TavilySearchRequest.country := None;
     TavilySearchRequest.max_tokens := None;
     TavilySearchRequest.chunks_per_source := None |}.

(** [exaSearchToolForWorkflow.execute] (lines 241-283) *)
Definition exaSearchToolForWorkflow (params : SearchParams.t)
  : Async ExaSearchResponse.t :=
  let* response := fetchTavily "/search" (searchRequest params) in
  ret (transformTavilyToExaFormat response).

(** The request of one URL of the contents tools (lines 300-307). *)
Definition contentsRequest (url domain : string) : TavilySearchRequest.t :=
  {| TavilySearchRequest.query := url;
     TavilySearchRequest.search_depth := Some advanced;
     TavilySearchRequest.max_results := Some 1;
     TavilySearchRequest.include_domains := Some [domain];
     TavilySearchRequest.include_raw_content := Some true;
     TavilySearchRequest.include_favicon := Some true;
     TavilySearchRequest.topic := None;
     TavilySearchRequest.include_answer := None;
     TavilySearchRequest.include_images := None;
     TavilySearchRequest.include_image_descriptions := None;
     TavilySearchRequest.exclude_domains := None;
     TavilySearchRequest.time_range := None;
     TavilySearchRequest.country := None;
     TavilySearchRequest.start_date := None;
     TavilySearchRequest.end_date := None;
     TavilySearchRequest.max_tokens := None;
     TavilySearchRequest.chunks_per_source := None |}.

(** The entry built from the selected result (lines 318-331). *)
Definition contentsEntry (params : ContentsParams.t) (url : string)
    (matchingResult : TavilySearchResult.t) : ExaSearchResult.t :=
  {| ExaSearchResult.id := url;
     ExaSearchResult.title := TavilySearchResult.title matchingResult;
     ExaSearchResult.url := TavilySearchResult.url matchingResult;
     ExaSearchResult.publishedDate :=
       Js.or_string (TavilySearchResult.published_date matchingResult) "";
     ExaSearchResult.author := "";
     ExaSearchResult.text :=
       Js.or_utf16
         ((fun raw =>
             Js.substring raw 0
               (Js.or_number (ContentsParams.maxCharacters params) 3000))
            <$> TavilySearchResult.raw_content matchingResult)
         (TavilySearchResult.content matchingResult);
     ExaSearchResult.image := None;
     ExaSearchResult.favicon := TavilySearchResult.favicon matchingResult;
     ExaSearchResult.score :=
       Some (TavilySearchResult.score matchingResult) |}.

(** [matchingResult] (lines 313-316): the first result whose URL contains
    the path of the requested URL, or else [result]. *)
Definition matchingResult (urlObj : URL.t)
    (response : TavilySearchResponse.t) (result : TavilySearchResult.t)
  : TavilySearchResult.t :=
  default result
    (List.find
       (fun r =>
          Js.includes (TavilySearchResult.url r) (URL.pathname urlObj))
       (TavilySearchResponse.results response)).

(** The callback mapped over [params.urls] (lines 295-338, and again
    421-464). *)
Definition contentsOfUrl (params : ContentsParams.t) (url : string)
  : Async (option ExaSearchResult.t) :=
  try_catch
    (let* urlObj := await (new_URL url) in
     let domain := URL.hostname urlObj in
     let* response := fetchTavily "/search" (contentsRequest url domain) in
     match TavilySearchResponse.results response with
     | result :: _ =>
         ret (Some (contentsEntry params url
                      (matchingResult urlObj response result)))
     | [] => ret None
     end)
    (fun error =>
       let* _ :=
         console_error ("Error fetching content for " +:+ url +:+ ":")
           error in
       ret None).

(** [exaContentsToolForWorkflow.execute] (lines 290-344) *)
Definition exaContentsToolForWorkflow (params : ContentsParams.t)
  : Async ExaContentsResponse :=
  let* results :=
    promise_all_map (contentsOfUrl params) (ContentsParams.urls params) in
  ret {| contents_results := omap id results |}.

Definition search_guide : string :=
  "Use the search results to answer the user's question. Summarize the content and ask if they have any additional questions about the topic.".

Definition search_solution : string :=
  "A web search error occurred. First, explain to the user what caused this specific error and how they can resolve it. Then provide helpful information based on your existing knowledge to answer their question.".

Definition contents_solution : string :=
  "A web content extraction error occurred. First, explain to the user what caused this specific error and how they can resolve it. Then provide helpful information based on your existing knowledge to answer their question.".

(** [exaSearchTool.execute] (lines 351-409) *)
Definition exaSearchTool (params : SearchParams.t)
  : Async (ToolOutput GuidedSearchResponse) :=
  TsSafe.unwrap
    (TsSafe.ifFail
       (fun e =>
          Failure
            {| isError := true;
               error := Js.message e;
               solution := search_solution |})
       (TsSafe.safe
          (let* tavilyResponse :=
             fetchTavily "/search" (searchRequest params) in
           let result := transformTavilyToExaFormat tavilyResponse in
           ret (Success {| spread := result; guide := search_guide |})))).

(** [exaContentsTool.execute] (lines 416-480) *)
Definition exaContentsTool (params : ContentsParams.t)
  : Async (ToolOutput ExaContentsResponse) :=
  TsSafe.unwrap
    (TsSafe.ifFail
       (fun e =>
          Failure
            {| isError := true;
               error := Js.message e;
               solution := contents_solution |})
       (TsSafe.safe
          (let* results :=
             promise_all_map (contentsOfUrl params)
               (ContentsParams.urls params) in
           ret (Success {| contents_results := omap id results |})))).

(** The request [fetchTavily] sends when it has the key [key]. *)
Definition tavilyRequest (key endpoint : string)
    (body : TavilySearchRequest.t) : Http.Request :=
  {| Http.url := BASE_URL +:+ endpoint;
     Http.method := "POST";
     Http.headers :=
       [("Content-Type", "application/json"); ("api-key", key)];
     Http.body := body |}.

End WebSearch.

(** ** Sample data for the closed instances *)

Module Example.

Definition url_a : string := "https://a.com/x".
Definition url_b : string := "https://b.com/y".
Definition not_a_url : string := "not a url".

(** The parser's answers on the three strings above. *)
Definition new_URL (url : string) : Js.settled URL.t :=
  if (url =? url_a)%string then
    Js.Fulfilled {| URL.hostname := "a.com"; URL.pathname := "/x" |}
  else if (url =? url_b)%string then
    Js.Fulfilled {| URL.hostname := "b.com"; URL.pathname := "/y" |}
  else Js.Rejected {| Js.name := "TypeError"; Js.message := "Invalid URL" |}.

Definition no_key : gmap string string := ∅.

Definition with_key : gmap string string :=
  {[ "TAVILY_API_KEY" := "tvly-first" ]}.

Definition rotated_key : gmap string string :=
  {[ "TAVILY_API_KEY" := "tvly-second" ]}.

Definition world (env : gmap string string) : World :=
  {| process_env := env; calls := []; console := ∅ |}.

Definition result_b : TavilySearchResult.t :=
  {| TavilySearchResult.title := "B";
     TavilySearchResult.url := "https://b.com/y";
     TavilySearchResult.content := Js.of_ascii "snippet of b";
     TavilySearchResult.score := 9 # 10;
     TavilySearchResult.published_date := None;
     TavilySearchResult.raw_content := Some (Js.of_ascii "full text of b");
     TavilySearchResult.favicon := None |}.

(** A hit on the same site whose URL is not the one asked for. *)
Definition result_home : TavilySearchResult.t :=
  {| TavilySearchResult.title := "B home";
     TavilySearchResult.url := "https://b.com/";
     TavilySearchResult.content := Js.of_ascii "home page of b";
     TavilySearchResult.score := 1 # 2;
     TavilySearchResult.published_date := None;
     TavilySearchResult.raw_content := Some [];
     TavilySearchResult.favicon := None |}.

Definition response_of (results : list TavilySearchResult.t)
    (images : option (list ImageItem)) : TavilySearchResponse.t :=
  {| TavilySearchResponse.query := "q";
     TavilySearchResponse.results := results;
     TavilySearchResponse.answer := None;
     TavilySearchResponse.images := images;
     TavilySearchResponse.response_time := 1 # 2;
     TavilySearchResponse.request_id := "req-1" |}.

Definition http_ok (body : TavilySearchResponse.t) : Http.Response :=
  {| Http.status := 200;
     Http.statusText := "OK";
     Http.text := None;
     Http.json := Js.Fulfilled body |}.

Definition http_status (status : Z) (statusText : string)
    (text : option string) : Http.Response :=
  {| Http.status := status;
     Http.statusText := statusText;
     Http.text := text;
     Http.json :=
       Js.Rejected {| Js.name := "SyntaxError";
                      Js.message := "Unexpected token" |} |}.

(** A network where every request is answered by the same response. *)
Definition always (response : Http.Response)
  : Http.Request -> Js.settled Http.Response :=
  fun _ => Js.Fulfilled response.

(** A network where the lookup inside [a.com] fails and every other
    request finds [result_b]. *)
Definition a_fails_b_succeeds (req : Http.Request)
  : Js.settled Http.Response :=
  if bool_decide
       (TavilySearchRequest.include_domains (Http.body req) = Some ["a.com"])
  then Js.Rejected {| Js.name := "TypeError"; Js.message := "fetch failed" |}
  else Js.Fulfilled (http_ok (response_of [result_b] None)).

Definition search_q : SearchParams.t :=
  {| SearchParams.query := "q";
     SearchParams.numResults := None;
     SearchParams.type := Some "neural";
     SearchParams.category := Some "news";
     SearchParams.includeDomains := Some ["a.com"];
     SearchParams.excludeDomains := Some [];
     SearchParams.startPublishedDate := Some "2024-01-01";
     SearchParams.endPublishedDate := None;
     SearchParams.maxCharacters := None |}.

Definition contents_of (urls : list string) : ContentsParams.t :=
  {| ContentsParams.urls := urls;
     ContentsParams.maxCharacters := None;
     ContentsParams.livecrawl := None |}.

(** [n] copies of the letter a. *)
Fixpoint letters (n : nat) : string :=
  match n with
  | O => ""
  | S n' => String (Ascii.ascii_of_nat 97) (letters n')
  end.

(** 5000 times the letter e with an acute accent (one code unit, 233). *)
Definition accented : Js.utf16 := replicate 5000 233%N.

(** A hit with a raw content of 5000 characters, and a request for at
    most 3000 of them. *)
Definition result_long : TavilySearchResult.t :=
  {| TavilySearchResult.title := "B";
     TavilySearchResult.url := "https://b.com/y";
     TavilySearchResult.content := Js.of_ascii "snippet of b";
     TavilySearchResult.score := 9 # 10;
     TavilySearchResult.published_date := None;
     TavilySearchResult.raw_content := Some accented;
     TavilySearchResult.favicon := None |}.

Definition contents_3000 (urls : list string) : ContentsParams.t :=
  {| ContentsParams.urls := urls;
     ContentsParams.maxCharacters := Some 3000;
     ContentsParams.livecrawl := None |}.

End Example.

(** * The model registry ([src/lib/ai/models.ts], lines 8-50)

    The base URL of the provider and the logging wrapper around [fetch].
    The wrapper has its own world: the calls of [fetch] it made and the
    lines it gave to the logger. *)

Module Models.

(** [s.replace(/\/+$/, "")]: [s] without the slashes it ends in. *)
Fixpoint remove_trailing_slashes (s : string) : string :=
  match s with
  | EmptyString => EmptyString
  | String c s' =>
      match remove_trailing_slashes s' with
      | EmptyString =>
          if Ascii.eqb c (Ascii.ascii_of_nat 47) then EmptyString
          else String c EmptyString
      | String c' t => String c (String c' t)
      end
  end.

(** Whether a string is made of slashes only. *)
Fixpoint all_slashes (s : string) : bool :=
  match s with
  | EmptyString => true
  | String c s' => Ascii.eqb c (Ascii.ascii_of_nat 47) && all_slashes s'
  end.

(** [getGroqBaseURL] (lines 9-15), [env] being [process.env]. *)
Definition getGroqBaseURL (env : gmap string string) : option string :=
  match env !! "GROQ_BASE_URL" with
  | Some baseURL =>
      if Js.truthy baseURL then Some (remove_trailing_slashes baseURL)
      else None
  | None => None
  end.

(** [groqBaseURL] (line 17) *)
Definition groqBaseURL (env : gmap string string) : string :=
  Js.or_string (getGroqBaseURL env) "https://api.groq.com/openai/v1".









End Models.

(** * The chart's naming helpers ([_helpers.tpl])

    Go strings are byte strings, as [string] is. *)

Module Helm.

Module Chart.
Record t := mk {
  Name : string;
  Version : string;
  AppVersion : option string;
}.
End Chart.

Module Release.
Record t := mk {
  Name : string;
  Service : string;
}.
End Release.

Module ServiceAccount.
Record t := mk {
  create : bool;
  name : option string;
}.
End ServiceAccount.

Module Values.
Record t := mk {
  nameOverride : option string;
  fullnameOverride : option string;
  serviceAccount : ServiceAccount.t;
}.
End Values.

(** The dot of the templates. *)
Record Context := mkContext {
  chart_ : Chart.t;
  release : Release.t;
  values : Values.t;
}.

(** [default d given]: [d] when [given] is unset or empty. *)
Definition default_ (d : string) (given : option string) : string :=
  match given with
  | Some s => if (s =? "")%string then d else s
  | None => d
  end.

(** The condition of [if] on a string value: set and not empty. *)
Definition is_set (given : option string) : bool :=
  match given with
  | Some s => negb (s =? "")%string
  | None => false
  end.

(** [trunc c s] for [c >= 0]: the first [c] bytes of a longer [s]. *)
Definition trunc (c : nat) (s : string) : string :=
  if (c <? String.length s)%nat then String.substring 0 c s else s.

(** [trimSuffix suffix s]: [s] without [suffix], once, when it ends in it. *)
Fixpoint trimSuffix (suffix s : string) : string :=
  if (s =? suffix)%string then EmptyString
  else
    match s with
    | EmptyString => EmptyString
    | String c s' => String c (trimSuffix suffix s')
    end.

(** [contains substr str] *)
Fixpoint contains (substr str : string) : bool :=
  String.prefix substr str ||
  match str with
  | EmptyString => false
  | String _ str' => contains substr str'
  end.

(** [replace "+" "_" s]: every plus sign becomes an underscore. *)
Fixpoint replace_plus (s : string) : string :=
  match s with
  | EmptyString => EmptyString
  | String c s' =>
      String (if Ascii.eqb c (Ascii.ascii_of_nat 43)
              then Ascii.ascii_of_nat 95 else c)
        (replace_plus s')
  end.

(** [better-chatbot.name] (lines 1-3) *)
Definition name (ctx : Context) : string :=
  trimSuffix "-"
    (trunc 63
       (default_ (Chart.Name (chart_ ctx))
          (Values.nameOverride (values ctx)))).

(** [better-chatbot.fullname] (lines 5-16) *)
Definition fullname (ctx : Context) : string :=
  if is_set (Values.fullnameOverride (values ctx)) then
    trimSuffix "-"
      (trunc 63 (default "" (Values.fullnameOverride (values ctx))))
  else
    let name :=
      default_ (Chart.Name (chart_ ctx))
        (Values.nameOverride (values ctx)) in
    if contains name (Release.Name (release ctx)) then
      trimSuffix "-" (trunc 63 (Release.Name (release ctx)))
    else
      trimSuffix "-"
        (trunc 63 (Release.Name (release ctx) +:+ "-" +:+ name)).

(** [better-chatbot.chart] (lines 18-20) *)
Definition chart (ctx : Context) : string :=
  trimSuffix "-"
    (trunc 63
       (replace_plus
          (Chart.Name (chart_ ctx) +:+ "-" +:+ Chart.Version (chart_ ctx)))).

(** [better-chatbot.serviceAccountName] (lines 36-46) *)
Definition serviceAccountName (ctx : Context) : string :=
  let sa := Values.serviceAccount (values ctx) in
  if ServiceAccount.create sa then
    if is_set (ServiceAccount.name sa)
    then default "" (ServiceAccount.name sa)
    else fullname ctx
  else default_ "default" (ServiceAccount.name sa).

End Helm.

(** ** Vocabulary of the further properties *)

(** The requests one call of [fetchTavily] sends: one when the key
    captured at load time is truthy, none otherwise. *)
Definition tavilyCalls (key : option string) (endpoint : string)
    (body : TavilySearchRequest.t) : list Http.Request :=
  match key with
  | Some k => if Js.truthy k then [tavilyRequest k endpoint body] else []
  | None => []
  end.

(** The lines the callback of one URL gives to [console.error]: one when
    the URL does not parse or its lookup fails, none otherwise. *)
Definition contentsErrors (load_env : gmap string string)
    (fetch : Http.Request -> Js.settled Http.Response)
    (new_URL : string -> Js.settled URL.t) (url : string)
  : list (string * Js.Error) :=
  match new_URL url with
  | Js.Fulfilled urlObj =>
      match outcome_of
              (fetchTavily load_env fetch "/search"
                 (contentsRequest url (URL.hostname urlObj))) with
      | Js.Fulfilled _ => []
      | Js.Rejected e => [("Error fetching content for " +:+ url +:+ ":", e)]
      end
  | Js.Rejected e => [("Error fetching content for " +:+ url +:+ ":", e)]
  end.

(** Whether the URL of a backing result contains the path of the
    requested URL (the test of [find], line 315). *)
Definition path_hit (urlObj : URL.t) (r : TavilySearchResult.t) : bool :=
  Js.includes (TavilySearchResult.url r) (URL.pathname urlObj).

(** ** Sample data for the further properties *)

Module Sample.

Definition proxy_env : gmap string string :=
  {[ "GROQ_BASE_URL" := "https://proxy.local/v1//" ]}.

Definition search_company : SearchParams.t :=
  {| SearchParams.query := "q";
     SearchParams.numResults := Some 3;
     SearchParams.type := None;
     SearchParams.category := Some "company";
     SearchParams.includeDomains := None;
     SearchParams.excludeDomains := None;
     SearchParams.startPublishedDate := None;
     SearchParams.endPublishedDate := None;
     SearchParams.maxCharacters := None |}.

Definition url_b_parsed : URL.t :=
  {| URL.hostname := "b.com"; URL.pathname := "/y" |}.

Definition chart_ctx (chartName : string) : Helm.Context :=
  {| Helm.chart_ :=
       {| Helm.Chart.Name := chartName;
          Helm.Chart.Version := "1.2.3+build.5";
          Helm.Chart.AppVersion := None |};
     Helm.release :=
       {| Helm.Release.Name := "prod"; Helm.Release.Service := "Helm" |};
     Helm.values :=
       {| Helm.Values.nameOverride := None;
          Helm.Values.fullnameOverride := None;
          Helm.Values.serviceAccount :=
            {| Helm.ServiceAccount.create := true;
               Helm.ServiceAccount.name := None |} |} |}.

End Sample.

(** * Properties *)

(** ** The translators *)

(** *** The search request *)

Lemma normalizedType_enum params ty :
  SearchParams.type params = Some ty ->
  ty ∈ ["auto"; "keyword"; "neural"] ->
  normalizedType params = ty.
Proof.
  unfold normalizedType. intros -> Hin.
  by repeat (apply elem_of_cons in Hin as [->|Hin]; [done|]);
    apply elem_of_nil in Hin.
Qed.

Lemma normalizedType_other params :
  SearchParams.type params ∉ [Some "auto"; Some "keyword"; Some "neural"] ->
  normalizedType params = "auto".
Proof.
  unfold normalizedType. intros Hnot.
  destruct (SearchParams.type params) as [ty|]; [|done].
  unfold Js.array_includes; simpl.
  destruct (String.eqb_spec ty "auto") as [->|_]; [done|].
  destruct (String.eqb_spec ty "keyword") as [->|_];
    [exfalso; apply Hnot; rewrite !elem_of_cons; tauto|].
  destruct (String.eqb_spec ty "neural") as [->|_];
    [exfalso; apply Hnot; rewrite !elem_of_cons; tauto|].
  by rewrite andb_false_r.
Qed.

Lemma type_in_enum (ty : string) :
  Some ty ∈ [Some "auto"; Some "keyword"; Some "neural"] <->
  ty ∈ ["auto"; "keyword"; "neural"].
Proof.
  rewrite !elem_of_cons, !elem_of_nil.
  split; (intros [H|[H|[H|[]]]]; simplify_eq; auto).
Qed.

(** C3: the mode is the given type when it is one of the three values and
    ["auto"] otherwise; the depth is [advanced] exactly when the mode is
    ["neural"], which is exactly when the given type is ["neural"], and
    [basic] in every other case. *)
Theorem C3_search_depth params :
  let mode := normalizedType params in
  let depth := TavilySearchRequest.search_depth (searchRequest params) in
  mode =
    (if bool_decide
          (SearchParams.type params
             ∈ [Some "auto"; Some "keyword"; Some "neural"])
     then default "auto" (SearchParams.type params) else "auto") /\
  depth = Some (if bool_decide (mode = "neural") then advanced else basic) /\
  (depth = Some advanced <-> SearchParams.type params = Some "neural") /\
  (depth = Some basic <-> SearchParams.type params <> Some "neural").
Proof.
  intros mode depth.
  assert (depth =
    Some (if bool_decide (mode = "neural") then advanced else basic))
    as Hdepth.
  { unfold depth, mode; simpl.
    destruct (String.eqb_spec (normalizedType params) "neural") as [E|E].
    - by rewrite bool_decide_eq_true_2.
    - rewrite bool_decide_eq_false_2 by done. by case_match. }
  destruct (SearchParams.type params) as [ty|] eqn:Hty.
  - destruct (decide (ty ∈ ["auto"; "keyword"; "neural"])) as [Hin|Hin].
    + assert (mode = ty) as Hmode by by apply normalizedType_enum.
      rewrite bool_decide_eq_true_2 by (by apply type_in_enum).
      rewrite Hdepth, Hmode. simpl.
      split; [done|]. split; [done|].
      clear Hdepth Hmode.
      case_bool_decide as Hm; [rewrite Hm|];
        (split; split; intros; first [done | congruence]).
    + assert (mode = "auto") as Hmode.
      { apply normalizedType_other. rewrite Hty. by rewrite type_in_enum. }
      rewrite bool_decide_eq_false_2 by (by rewrite type_in_enum).
      rewrite Hdepth, Hmode. simpl.
      split; [done|]. split; [done|].
      assert (ty <> "neural") as Hne.
      { intros ->. apply Hin. rewrite !elem_of_cons. tauto. }
      split; split; intros; first [done | congruence].
  - assert (mode = "auto") as Hmode
      by (unfold mode, normalizedType; by rewrite Hty).
    rewrite Hdepth, Hmode. by repeat split.
Qed.

(** C7: of the optional fields of the payload, [topic] is present, as
    [news], exactly when the category is ["news"], and never defaulted;
    the two domain lists and the two dates are present exactly when the
    input is given and not empty, and then equal to it; the remaining
    optional fields are never present.  So an absent input never puts its
    field into the payload. *)
Theorem C7_optional_fields params :
  let r := searchRequest params in
  (TavilySearchRequest.topic r = Some news <->
   SearchParams.category params = Some "news") /\
  (TavilySearchRequest.topic r = None <->
   SearchParams.category params <> Some "news") /\
  (forall l, TavilySearchRequest.include_domains r = Some l <->
     SearchParams.includeDomains params = Some l /\ l <> []) /\
  (forall l, TavilySearchRequest.exclude_domains r = Some l <->
     SearchParams.excludeDomains params = Some l /\ l <> []) /\
  (forall d, TavilySearchRequest.start_date r = Some d <->
     SearchParams.startPublishedDate params = Some d /\ d <> "") /\
  (forall d, TavilySearchRequest.end_date r = Some d <->
     SearchParams.endPublishedDate params = Some d /\ d <> "") /\
  (SearchParams.category params = None ->
   TavilySearchRequest.topic r = None) /\
  (SearchParams.includeDomains params = None ->
   TavilySearchRequest.include_domains r = None) /\
  (SearchParams.excludeDomains params = None ->
   TavilySearchRequest.exclude_domains r = None) /\
  (SearchParams.startPublishedDate params = None ->
   TavilySearchRequest.start_date r = None) /\
  (SearchParams.endPublishedDate params = None ->
   TavilySearchRequest.end_date r = None) /\
  TavilySearchRequest.time_range r = None /\
  TavilySearchRequest.country r = None /\
  TavilySearchRequest.max_tokens r = None /\
  TavilySearchRequest.chunks_per_source r = None.
Proof.
  assert (forall (o : option (list string)) l,
            (if Js.has_length o then o else None) = Some l <->
            o = Some l /\ l <> []) as Hlist.
  { intros [[|x xs]|] l; simpl; split;
      first [ by intros [= <-] | by intros [[= <-] ?] | done ]. }
  assert (forall (o : option string) d,
            (if Js.truthy_opt o then o else None) = Some d <->
            o = Some d /\ d <> "") as Hdate.
  { intros [x|] d; simpl; [|split; [done|by intros [? ?]]].
    unfold Js.truthy. destruct (String.eqb_spec x "") as [->|Hx]; simpl.
    - split; [done|]. by intros [[= <-] ?].
    - split; [by intros [= <-]|]. by intros [[= <-] ?]. }
  assert (forall cat : option string,
            let t := match cat with
                     | Some c => if (c =? "news")%string then Some news
                                 else None
                     | None => None
                     end in
            (t = Some news <-> cat = Some "news") /\
            (t = None <-> cat <> Some "news")) as Htopic.
  { intros [c|]; simpl; [|by repeat split].
    destruct (String.eqb_spec c "news") as [->|Hc];
      repeat split; intros; first [done | congruence]. }
  destruct params as [q n ty cat inc exc sd ed mc]; simpl.
  split; [apply Htopic|]. split; [apply Htopic|].
  split; [apply Hlist|]. split; [apply Hlist|].
  split; [apply Hdate|]. split; [apply Hdate|].
  repeat split; by intros ->.
Qed.

(** *** The search response *)

Lemma transform_results_lookup tavilyResponse i :
  ExaSearchResponse.results (transformTavilyToExaFormat tavilyResponse) !! i
  = (fun result =>
       {| ExaSearchResult.id := TavilySearchResult.url result;
          ExaSearchResult.title := TavilySearchResult.title result;
          ExaSearchResult.url := TavilySearchResult.url result;
          ExaSearchResult.publishedDate :=
            Js.or_string (TavilySearchResult.published_date result) "";
          ExaSearchResult.author := "";
          ExaSearchResult.text := TavilySearchResult.content result;
          ExaSearchResult.image := imageUrl tavilyResponse i;
          ExaSearchResult.favicon := TavilySearchResult.favicon result;
          ExaSearchResult.score := Some (TavilySearchResult.score result) |})
    <$> TavilySearchResponse.results tavilyResponse !! i.
Proof. unfold transformTavilyToExaFormat; simpl. apply list_lookup_imap. Qed.

Lemma transform_results_length tavilyResponse :
  length (ExaSearchResponse.results
            (transformTavilyToExaFormat tavilyResponse))
  = length (TavilySearchResponse.results tavilyResponse).
Proof. unfold transformTavilyToExaFormat; simpl. apply length_imap. Qed.

Lemma transform_results_id_url tavilyResponse :
  Forall (fun r => ExaSearchResult.id r = ExaSearchResult.url r)
    (ExaSearchResponse.results (transformTavilyToExaFormat tavilyResponse)).
Proof.
  apply Forall_lookup. intros i r Hr.
  rewrite transform_results_lookup in Hr.
  destruct (TavilySearchResponse.results tavilyResponse !! i);
    simplify_eq/=; done.
Qed.

(** C8, as the code has it: the image of the result at index [i] comes
    from the entry of the images list at index [i]: a string entry is the
    image, an object entry gives its [url] when that is not the empty
    string, and there is no image in every other case (no images list, an
    index past its end, an object with an empty [url]).  The translation
    is a total function, so no shape of the two lists raises an error. *)
Theorem C8_image_by_index tavilyResponse i result :
  TavilySearchResponse.results tavilyResponse !! i = Some result ->
  exists r,
    ExaSearchResponse.results (transformTavilyToExaFormat tavilyResponse)
      !! i = Some r /\
    ExaSearchResult.image r =
      match TavilySearchResponse.images tavilyResponse ≫= (.!! i) with
      | Some (ImageString s) => Some s
      | Some (ImageObject o) =>
          if decide (TavilyImageResult.url o = "") then None
          else Some (TavilyImageResult.url o)
      | None => None
      end.
Proof.
  intros Hres. rewrite transform_results_lookup, Hres. simpl.
  eexists; split; [done|]. simpl. unfold imageUrl.
  destruct (TavilySearchResponse.images tavilyResponse) as [imgs|];
    simpl; [|done].
  destruct imgs as [|i0 imgs]; simpl; [by destruct i|].
  destruct ((i0 :: imgs) !! i) as [[s|o]|]; try done.
  unfold Js.truthy. case_decide as Hu.
  - by rewrite Hu.
  - apply String.eqb_neq in Hu. by rewrite Hu.
Qed.

(** *** Cutting strings *)

(** The first [n] bytes of a byte string (used for the chart's [trunc]). *)
Lemma substring_0_length n s :
  String.length (String.substring 0 n s) = Nat.min n (String.length s).
Proof.
  revert n. induction s as [|c s IH]; intros [|n]; simpl; auto.
Qed.

(** *** The text of a contents entry *)

Lemma js_substring_0 (s : Js.utf16) n :
  0 <= n -> Js.substring s 0 n = take (Z.to_nat n) s.
Proof.
  intros Hn. unfold Js.substring.
  replace (Z.max 0 (Z.min 0 (Z.of_nat (length s)))) with 0 by lia.
  replace (Z.min 0 (Z.max 0 (Z.min n (Z.of_nat (length s))))) with 0 by lia.
  rewrite drop_0.
  destruct (Z.le_gt_cases n (Z.of_nat (length s))).
  - f_equal. lia.
  - rewrite !take_ge by lia. done.
Qed.

Lemma contentsEntry_text params url m :
  0 < default 3000 (ContentsParams.maxCharacters params) ->
  ExaSearchResult.text (contentsEntry params url m) =
    match TavilySearchResult.raw_content m with
    | Some raw =>
        if decide (raw = []) then TavilySearchResult.content m
        else take
               (Z.to_nat (default 3000 (ContentsParams.maxCharacters params)))
               raw
    | None => TavilySearchResult.content m
    end.
Proof.
  intros Hpos. unfold contentsEntry; simpl.
  assert (Js.or_number (ContentsParams.maxCharacters params) 3000
          = default 3000 (ContentsParams.maxCharacters params)) as ->.
  { destruct (ContentsParams.maxCharacters params) as [n|]; simpl in *;
      [|done].
    destruct (Z.eqb_spec n 0); [lia|done]. }
  destruct (TavilySearchResult.raw_content m) as [raw|]; simpl; [|done].
  rewrite js_substring_0 by lia.
  destruct raw as [|c raw]; [by rewrite take_nil|].
  rewrite decide_False by done.
  destruct (Z.to_nat _) as [|k] eqn:Hk; [lia|done].
Qed.

Lemma matchingResult_elem urlObj response result :
  head (TavilySearchResponse.results response) = Some result ->
  matchingResult urlObj response result
    ∈ TavilySearchResponse.results response.
Proof.
  intros Hhead. unfold matchingResult.
  destruct (List.find _ _) as [r|] eqn:Hfind; simpl.
  - apply list_elem_of_In. by apply find_some in Hfind as [? _].
  - destruct (TavilySearchResponse.results response); simplify_eq/=.
    by left.
Qed.

(** *** The selection of the matching result *)

Lemma find_first {A} (p : A -> bool) (l : list A) (x : A) :
  List.find p l = Some x ->
  p x = true /\
  exists before behind,
    l = (before ++ x :: behind)%list /\
    Forall (fun y => p y = false) before.
Proof.
  induction l as [|y l IH]; simpl; [done|].
  destruct (p y) eqn:Hy.
  - intros [= ->]. split; [done|]. by exists [], l.
  - intros Hfind. destruct (IH Hfind) as (Hx & before & behind & -> & Hb).
    split; [done|]. exists (y :: before), behind. split; [done|].
    by constructor.
Qed.

(** X12: the result a contents entry is built from is always one of the
    backing results; when some result's URL contains the path of the
    requested URL it is the first such result, and otherwise it is the
    first result. *)
Theorem X12_matchingResult_selection urlObj response result :
  head (TavilySearchResponse.results response) = Some result ->
  let selected := matchingResult urlObj response result in
  selected ∈ TavilySearchResponse.results response /\
  ((exists r,
      r ∈ TavilySearchResponse.results response /\
      path_hit urlObj r = true) ->
   path_hit urlObj selected = true /\
   exists before behind,
     TavilySearchResponse.results response
     = (before ++ selected :: behind)%list /\
     Forall (fun r => path_hit urlObj r = false) before) /\
  ((forall r,
      r ∈ TavilySearchResponse.results response ->
      path_hit urlObj r = false) ->
   selected = result).
Proof.
  intros Hhead selected.
  split; [by apply matchingResult_elem|].
  unfold selected, matchingResult. fold (path_hit urlObj).
  destruct (List.find (path_hit urlObj)
              (TavilySearchResponse.results response)) as [m|] eqn:Hfind;
    simpl.
  - split.
    + intros _. by apply find_first.
    + intros Hnone.
      apply find_some in Hfind as [Hin Hm]. apply list_elem_of_In in Hin.
      rewrite (Hnone m Hin) in Hm. done.
  - split; [|done].
    intros (r & Hin & Hr). apply list_elem_of_In in Hin.
    pose proof (find_none _ _ Hfind r Hin) as Hr'.
    rewrite Hr in Hr'. done.
Qed.

(** *** More on the search response *)

(** X13: the search translation is positional: the legacy results carry,
    in the order of the backing results, their URL, title, content (as
    text), favicon, score, and published date (the empty string when there
    is none). *)
Theorem X13_search_results_are_positional tavilyResponse :
  let out :=
    ExaSearchResponse.results (transformTavilyToExaFormat tavilyResponse) in
  let backing := TavilySearchResponse.results tavilyResponse in
  ExaSearchResult.url <$> out = TavilySearchResult.url <$> backing /\
  ExaSearchResult.title <$> out = TavilySearchResult.title <$> backing /\
  ExaSearchResult.text <$> out = TavilySearchResult.content <$> backing /\
  ExaSearchResult.favicon <$> out = TavilySearchResult.favicon <$> backing /\
  ExaSearchResult.score <$> out
  = (fun r => Some (TavilySearchResult.score r)) <$> backing /\
  ExaSearchResult.publishedDate <$> out
  = (fun r => Js.or_string (TavilySearchResult.published_date r) "")
      <$> backing.
Proof.
  intros out backing.
  repeat split; apply list_eq; intros i; rewrite !list_lookup_fmap;
    unfold out; rewrite transform_results_lookup; fold backing;
    by destruct (backing !! i).
Qed.

(** X14: the images past the last result are never read: the translation
    of a response is the translation of the same response with its images
    list cut to the number of results. *)
Theorem X14_surplus_images_are_ignored query results answer images
    response_time request_id :
  transformTavilyToExaFormat
    (TavilySearchResponse.mk query results answer (Some images)
       response_time request_id)
  = transformTavilyToExaFormat
      (TavilySearchResponse.mk query results answer
         (Some (take (length results) images)) response_time request_id).
Proof.
  unfold transformTavilyToExaFormat; simpl. f_equal.
  apply imap_ext. intros i result Hi.
  apply lookup_lt_Some in Hi.
  f_equal. unfold imageUrl; simpl.
  rewrite length_take, lookup_take_lt by done.
  destruct images as [|image images]; simpl.
  - by destruct (length results).
  - by destruct (length results); [lia|].
Qed.

Section Properties.

Variable load_env : gmap string string.
Variable fetch : Http.Request -> Js.settled Http.Response.
Variable new_URL : string -> Js.settled URL.t.

Local Abbreviation API_KEY := (API_KEY load_env).
Local Abbreviation fetchTavily := (fetchTavily load_env fetch).
Local Abbreviation contentsOfUrl := (contentsOfUrl load_env fetch new_URL).
Local Abbreviation exaSearchToolForWorkflow :=
  (exaSearchToolForWorkflow load_env fetch).
Local Abbreviation exaSearchTool := (exaSearchTool load_env fetch).
Local Abbreviation exaContentsToolForWorkflow :=
  (exaContentsToolForWorkflow load_env fetch new_URL).
Local Abbreviation exaContentsTool :=
  (exaContentsTool load_env fetch new_URL).
Local Abbreviation contentsErrors := (contentsErrors load_env fetch new_URL).

(** *** The effect discipline *)

Lemma after_nil w : after w [] [] = w.
Proof.
  destruct w; unfold after; simpl.
  by rewrite app_nil_r, (right_id_L ∅ (⊎)).
Qed.

Lemma after_after w r1 l1 r2 l2 :
  after (after w r1 l1) r2 l2 = after w (r1 ++ r2) (l1 ++ l2).
Proof.
  unfold after; simpl.
  by rewrite app_assoc, list_to_set_disj_app, (assoc_L (⊎)).
Qed.

Lemma emits_ret {A} (a : A) : emits (ret a) (Js.Fulfilled a) [] [].
Proof. intros w. by rewrite after_nil. Qed.

Lemma emits_throw {A} e : emits (@throw A e) (Js.Rejected e) [] [].
Proof. intros w. by rewrite after_nil. Qed.

Lemma emits_await {A} (p : Js.settled A) : emits (await p) p [] [].
Proof. intros w. by rewrite after_nil. Qed.

Lemma emits_await_fetch req : emits (await_fetch fetch req) (fetch req) [req] [].
Proof.
  intros w. unfold await_fetch, after; simpl.
  by rewrite (right_id_L ∅ (⊎)).
Qed.

Lemma emits_console_error msg e :
  emits (console_error msg e) (Js.Fulfilled tt) [] [(msg, e)].
Proof.
  intros w. unfold console_error, after; simpl.
  by rewrite app_nil_r, (right_id_L ∅ (⊎)).
Qed.

Create HintDb emits discriminated.
#[local] Hint Resolve emits_ret emits_throw emits_await
  emits_await_fetch emits_console_error : emits.

Lemma emits_bind {A B} (m : Async A) (k : A -> Async B) a b r1 l1 r2 l2 :
  emits m (Js.Fulfilled a) r1 l1 ->
  emits (k a) b r2 l2 ->
  emits (bind m k) b (r1 ++ r2) (l1 ++ l2).
Proof. intros Hm Hk w. unfold bind. by rewrite Hm, Hk, after_after. Qed.

Lemma emits_bind_rejected {A B} (m : Async A) (k : A -> Async B) e r l :
  emits m (Js.Rejected e) r l ->
  emits (bind m k) (Js.Rejected e) r l.
Proof. intros Hm w. unfold bind. by rewrite Hm. Qed.

Lemma emits_bind_ret {A B} (m : Async A) (g : A -> B) a r l :
  emits m (Js.Fulfilled a) r l ->
  emits (bind m (fun x => ret (g x))) (Js.Fulfilled (g a)) r l.
Proof. intros Hm w. unfold bind, ret. by rewrite Hm. Qed.

Lemma emits_try_fulfilled {A} (m : Async A) h a r l :
  emits m (Js.Fulfilled a) r l ->
  emits (try_catch m h) (Js.Fulfilled a) r l.
Proof. intros Hm w. unfold try_catch. by rewrite Hm. Qed.

Lemma emits_try_rejected {A} (m : Async A) h e b r1 l1 r2 l2 :
  emits m (Js.Rejected e) r1 l1 ->
  emits (h e) b r2 l2 ->
  emits (try_catch m h) b (r1 ++ r2) (l1 ++ l2).
Proof.
  intros Hm Hh w. unfold try_catch. by rewrite Hm, Hh, after_after.
Qed.

Lemma emits_outcome {A} (m : Async A) a r l :
  emits m a r l ->
  outcome_of m = a /\ requests_of m = r /\
  logs_of m = list_to_set_disj l.
Proof.
  intros H. unfold outcome_of, requests_of, logs_of. rewrite (H blank).
  simpl. by rewrite (left_id_L ∅ (⊎)).
Qed.

Lemma emits_alone {A} (m : Async (option A)) o r l :
  emits m (Js.Fulfilled o) r l -> alone m = o.
Proof.
  intros H. unfold alone. by destruct (emits_outcome _ _ _ _ H) as [-> _].
Qed.

(** *** The backing client *)

Lemma fetchTavily_no_key endpoint body :
  Js.truthy_opt API_KEY = false ->
  emits (fetchTavily endpoint body)
    (Js.Rejected (Js.new_Error "TAVILY_API_KEY is not configured")) [] [].
Proof.
  unfold fetchTavily, Js.truthy_opt. intros H.
  destruct API_KEY as [key|]; [rewrite H|]; apply emits_throw.
Qed.

Lemma fetchTavily_key endpoint body key :
  API_KEY = Some key -> Js.truthy key = true ->
  exists a,
    emits (fetchTavily endpoint body) a [tavilyRequest key endpoint body] [].
Proof.
  intros HK HT. unfold fetchTavily. rewrite HK, HT.
  fold (tavilyRequest key endpoint body).
  pose proof (emits_await_fetch (tavilyRequest key endpoint body)) as HF.
  destruct (fetch (tavilyRequest key endpoint body)) as [response|e].
  - set (k := fun response : Http.Response => _).
    assert (exists a, emits (k response) a [] []) as [a Ha].
    { subst k; simpl.
      repeat case_match; eauto with emits. }
    exists a. apply (emits_bind _ _ _ _ _ _ _ _ HF Ha).
  - eexists. by apply emits_bind_rejected.
Qed.

Lemma fetchTavily_emits endpoint body :
  exists a reqs,
    emits (fetchTavily endpoint body) a reqs [] /\
    (reqs = [] \/
     exists key,
       API_KEY = Some key /\ reqs = [tavilyRequest key endpoint body]).
Proof.
  destruct (Js.truthy_opt API_KEY) eqn:HT.
  - unfold Js.truthy_opt in HT. destruct API_KEY as [key|] eqn:HK; [|done].
    destruct (fetchTavily_key endpoint body key HK HT) as [a Ha].
    exists a, [tavilyRequest key endpoint body]. eauto.
  - eexists _, []. split; [by apply fetchTavily_no_key | by left].
Qed.

(** The settlement of [fetchTavily] once the response is in. *)
Lemma fetchTavily_response endpoint body key response w :
  API_KEY = Some key -> Js.truthy key = true ->
  fetch (tavilyRequest key endpoint body) = Js.Fulfilled response ->
  fst (fetchTavily endpoint body w) =
    if (Http.status response =? 401)%Z then
      Js.Rejected (Js.new_Error "Invalid Tavily API key")
    else if (Http.status response =? 429)%Z then
      Js.Rejected (Js.new_Error "Tavily API usage limit exceeded")
    else if Http.ok response then Http.json response
    else
      Js.Rejected
        (Js.new_Error
           ("Tavily API error: " +:+ pretty (Http.status response)
            +:+ " " +:+ Http.statusText response
            +:+ (if Js.truthy (default "" (Http.text response))
                 then " - " +:+ default "" (Http.text response) else ""))).
Proof.
  intros HK HT HF. unfold fetchTavily. rewrite HK, HT.
  fold (tavilyRequest key endpoint body).
  unfold bind, await_fetch. rewrite HF.
  by repeat case_match.
Qed.

(** C4: without a key [fetchTavily] fails with the configuration error and
    leaves the world as it was, so nothing was sent; with a key, a 401 and
    a 429 fail with two different messages, and any other status outside
    200-299 fails with a message made of the status code, the status text
    and, when the body could be read and is not empty, the body text; an
    unreadable body only shortens the message. *)
Theorem C4_fetchTavily_failures endpoint body w :
  (Js.truthy_opt API_KEY = false ->
   fetchTavily endpoint body w =
     (Js.Rejected (Js.new_Error "TAVILY_API_KEY is not configured"), w)) /\
  (forall key response,
     API_KEY = Some key -> Js.truthy key = true ->
     fetch (tavilyRequest key endpoint body) = Js.Fulfilled response ->
     (Http.status response = 401 ->
      fst (fetchTavily endpoint body w) =
        Js.Rejected (Js.new_Error "Invalid Tavily API key")) /\
     (Http.status response = 429 ->
      fst (fetchTavily endpoint body w) =
        Js.Rejected (Js.new_Error "Tavily API usage limit exceeded")) /\
     (Http.status response <> 401 -> Http.status response <> 429 ->
      Http.ok response = false ->
      fst (fetchTavily endpoint body w) =
        Js.Rejected
          (Js.new_Error
             ("Tavily API error: " +:+ pretty (Http.status response)
              +:+ " " +:+ Http.statusText response
              +:+ match Http.text response with
                  | Some body_text =>
                      if decide (body_text = "") then ""
                      else " - " +:+ body_text
                  | None => ""
                  end)))) /\
  Js.new_Error "Invalid Tavily API key"
    <> Js.new_Error "Tavily API usage limit exceeded".
Proof.
  split; [|split; [|done]].
  - intros HK. rewrite (fetchTavily_no_key endpoint body HK w).
    by rewrite after_nil.
  - intros key response HK HT HF.
    rewrite (fetchTavily_response endpoint body key response w HK HT HF).
    split; [|split].
    + by intros ->.
    + by intros ->.
    + intros H401 H429 Hok.
      apply Z.eqb_neq in H401, H429. rewrite H401, H429, Hok.
      do 2 f_equal. f_equal.
      destruct (Http.text response) as [t|]; simpl; [|done].
      unfold Js.truthy. case_decide as Ht.
      * by rewrite Ht.
      * apply String.eqb_neq in Ht. by rewrite Ht.
Qed.

(** C2, as the code has it: the key is the one [process.env] held when the
    module was evaluated.  A call settles the same way and sends the same
    requests whatever [process.env] holds when it is made, and a request it
    sends carries the key of load time. *)
Theorem C2_key_captured_at_load endpoint body :
  exists a reqs,
    (forall w, fetchTavily endpoint body w = (a, after w reqs [])) /\
    (forall req, req ∈ reqs ->
       exists key,
         load_env !! "TAVILY_API_KEY" = Some key /\
         req = tavilyRequest key endpoint body).
Proof.
  destruct (fetchTavily_emits endpoint body) as (a & reqs & He & Hr).
  exists a, reqs. split; [exact He|].
  intros req Hin. destruct Hr as [->|(key & HK & ->)].
  - by apply elem_of_nil in Hin.
  - apply list_elem_of_singleton in Hin as ->. by exists key.
Qed.

(** *** The per-URL callback of the contents tools *)

Lemma contentsOfUrl_bad_url params url e :
  new_URL url = Js.Rejected e ->
  emits (contentsOfUrl params url) (Js.Fulfilled None) []
    [("Error fetching content for " +:+ url +:+ ":", e)].
Proof.
  intros Hurl. unfold contentsOfUrl. rewrite Hurl.
  eapply (emits_try_rejected _ _ e _ [] [] [] [_]).
  - apply emits_bind_rejected, emits_await.
  - apply (emits_bind _ _ tt _ [] [_] [] []);
      [apply emits_console_error | apply emits_ret].
Qed.

Lemma contentsOfUrl_lookup_fails params url urlObj e reqs :
  new_URL url = Js.Fulfilled urlObj ->
  emits (fetchTavily "/search" (contentsRequest url (URL.hostname urlObj)))
    (Js.Rejected e) reqs [] ->
  emits (contentsOfUrl params url) (Js.Fulfilled None) reqs
    [("Error fetching content for " +:+ url +:+ ":", e)].
Proof.
  intros Hurl Hfetch. unfold contentsOfUrl. rewrite Hurl.
  rewrite <- (app_nil_r reqs).
  eapply (emits_try_rejected _ _ e _ reqs [] [] [_]).
  - apply (emits_bind _ _ urlObj _ [] [] reqs []); [apply emits_await|].
    by apply emits_bind_rejected.
  - apply (emits_bind _ _ tt _ [] [_] [] []);
      [apply emits_console_error | apply emits_ret].
Qed.

Lemma contentsOfUrl_lookup_ok params url urlObj response reqs :
  new_URL url = Js.Fulfilled urlObj ->
  emits (fetchTavily "/search" (contentsRequest url (URL.hostname urlObj)))
    (Js.Fulfilled response) reqs [] ->
  emits (contentsOfUrl params url)
    (Js.Fulfilled
       ((fun result =>
           contentsEntry params url (matchingResult urlObj response result))
          <$> head (TavilySearchResponse.results response)))
    reqs [].
Proof.
  intros Hurl Hfetch. unfold contentsOfUrl. rewrite Hurl.
  apply emits_try_fulfilled.
  apply (emits_bind _ _ urlObj _ [] [] reqs []); [apply emits_await|].
  rewrite <- (app_nil_r reqs).
  apply (emits_bind _ _ response _ reqs [] [] []); [done|].
  destruct (TavilySearchResponse.results response); apply emits_ret.
Qed.

(** The callback never rejects, and what it resolves to does not depend
    on the world it starts from. *)
Lemma contentsOfUrl_emits params url :
  exists reqs logs,
    emits (contentsOfUrl params url)
      (Js.Fulfilled (alone (contentsOfUrl params url))) reqs logs.
Proof.
  assert (exists o reqs logs,
            emits (contentsOfUrl params url) (Js.Fulfilled o) reqs logs)
    as (o & reqs & logs & He).
  { destruct (new_URL url) as [urlObj|e] eqn:Hurl.
    - destruct (fetchTavily_emits "/search"
                  (contentsRequest url (URL.hostname urlObj)))
        as ([response|e] & reqs & Hf & _).
      + eauto using contentsOfUrl_lookup_ok.
      + eauto using contentsOfUrl_lookup_fails.
    - eauto using contentsOfUrl_bad_url. }
  exists reqs, logs. by rewrite (emits_alone _ _ _ _ He).
Qed.

(** The lines of one callback are those of [contentsErrors]. *)
Lemma contentsOfUrl_lines params url :
  exists reqs,
    emits (contentsOfUrl params url)
      (Js.Fulfilled (alone (contentsOfUrl params url))) reqs
      (contentsErrors url).
Proof.
  assert (exists o reqs,
            emits (contentsOfUrl params url) (Js.Fulfilled o) reqs
              (contentsErrors url))
    as (o & reqs & He).
  { unfold contentsErrors.
    destruct (new_URL url) as [urlObj|e] eqn:Hurl.
    - destruct (fetchTavily_emits "/search"
                  (contentsRequest url (URL.hostname urlObj)))
        as (a & reqs & Hf & _).
      destruct (emits_outcome _ _ _ _ Hf) as (-> & _ & _).
      destruct a as [response|e].
      + eauto using contentsOfUrl_lookup_ok.
      + eauto using contentsOfUrl_lookup_fails.
    - eauto using contentsOfUrl_bad_url. }
  exists reqs. by rewrite (emits_alone _ _ _ _ He).
Qed.

Lemma contentsOfUrl_alone params url :
  alone (contentsOfUrl params url) =
    match new_URL url with
    | Js.Fulfilled urlObj =>
        match outcome_of
                (fetchTavily "/search"
                   (contentsRequest url (URL.hostname urlObj))) with
        | Js.Fulfilled response =>
            (fun result =>
               contentsEntry params url
                 (matchingResult urlObj response result))
              <$> head (TavilySearchResponse.results response)
        | Js.Rejected _ => None
        end
    | Js.Rejected _ => None
    end.
Proof.
  destruct (new_URL url) as [urlObj|e] eqn:Hurl.
  - destruct (fetchTavily_emits "/search"
                (contentsRequest url (URL.hostname urlObj)))
      as (a & reqs & Hf & _).
    destruct (emits_outcome _ _ _ _ Hf) as (-> & _ & _).
    destruct a as [response|e].
    + eapply emits_alone. by apply contentsOfUrl_lookup_ok.
    + eapply emits_alone. by eapply contentsOfUrl_lookup_fails.
  - eapply emits_alone. by apply contentsOfUrl_bad_url.
Qed.

Lemma contentsOfUrl_fst params url w :
  fst (contentsOfUrl params url w)
  = Js.Fulfilled (alone (contentsOfUrl params url)).
Proof.
  destruct (contentsOfUrl_emits params url) as (reqs & logs & He).
  by rewrite (He w).
Qed.

(** *** [Promise.all] over callbacks that never reject *)

Lemma promise_all_map_emits {A B} (f : A -> Async (option B))
    (lines : A -> list (string * Js.Error)) (xs : list A) :
  (forall x,
     exists r, emits (f x) (Js.Fulfilled (alone (f x))) r (lines x)) ->
  emits (promise_all_map f xs)
    (Js.Fulfilled ((fun x => alone (f x)) <$> xs))
    (xs ≫= (fun x => requests_of (f x)))
    (xs ≫= lines).
Proof.
  intros Hf. induction xs as [|x xs IH]; csimpl.
  - apply emits_ret.
  - destruct (Hf x) as (r & He).
    destruct (emits_outcome _ _ _ _ He) as (_ & -> & _).
    intros w. rewrite (He w), (IH (after w _ _)). by rewrite after_after.
Qed.

Lemma omap_id_fmap {A B} (g : A -> option B) (xs : list A) :
  omap id (g <$> xs) = omap g xs.
Proof.
  induction xs as [|x xs IH]; [done|]. csimpl.
  destruct (g x); csimpl; by rewrite IH.
Qed.

(** *** The two contents tools *)

Lemma exaContentsToolForWorkflow_emits params :
  emits (exaContentsToolForWorkflow params)
    (Js.Fulfilled
       {| contents_results :=
            omap (fun url => alone (contentsOfUrl params url))
              (ContentsParams.urls params) |})
    (ContentsParams.urls params
       ≫= (fun url => requests_of (contentsOfUrl params url)))
    (ContentsParams.urls params ≫= contentsErrors).
Proof.
  unfold exaContentsToolForWorkflow.
  rewrite <- omap_id_fmap.
  apply (emits_bind_ret _ (fun results => mkContents (omap id results))).
  apply promise_all_map_emits, contentsOfUrl_lines.
Qed.

Lemma exaContentsTool_emits params :
  emits (exaContentsTool params)
    (Js.Fulfilled
       (Success
          {| contents_results :=
               omap (fun url => alone (contentsOfUrl params url))
                 (ContentsParams.urls params) |}))
    (ContentsParams.urls params
       ≫= (fun url => requests_of (contentsOfUrl params url)))
    (ContentsParams.urls params ≫= contentsErrors).
Proof.
  assert (emits
    (let* results :=
       promise_all_map (contentsOfUrl params) (ContentsParams.urls params) in
     ret (Success {| contents_results := omap id results |}))
    (Js.Fulfilled
       (Success
          {| contents_results :=
               omap (fun url => alone (contentsOfUrl params url))
                 (ContentsParams.urls params) |}))
    (ContentsParams.urls params
       ≫= (fun url => requests_of (contentsOfUrl params url)))
    (ContentsParams.urls params ≫= contentsErrors)) as He.
  { rewrite <- omap_id_fmap.
    apply (emits_bind_ret _
             (fun results => Success (mkContents (omap id results)))).
    apply promise_all_map_emits, contentsOfUrl_lines. }
  intros w. unfold exaContentsTool, TsSafe.unwrap, TsSafe.ifFail, TsSafe.safe.
  by rewrite (He w).
Qed.

(** What every entry of a contents answer is made of. *)
Lemma contents_entry_origin params url r :
  alone (contentsOfUrl params url) = Some r ->
  exists urlObj response result,
    new_URL url = Js.Fulfilled urlObj /\
    outcome_of
      (fetchTavily "/search" (contentsRequest url (URL.hostname urlObj)))
    = Js.Fulfilled response /\
    head (TavilySearchResponse.results response) = Some result /\
    r = contentsEntry params url (matchingResult urlObj response result).
Proof.
  rewrite contentsOfUrl_alone.
  destruct (new_URL url) as [urlObj|] eqn:Hurl; [|done].
  destruct (outcome_of _) as [response|] eqn:Hlookup; [|done].
  destruct (head _) as [result|] eqn:Hhead; [|done].
  simpl. intros [= <-]. by exists urlObj, response, result.
Qed.

(** C1, as the code has it: the search translation keeps the number of
    results and gives every result its [url] as [id]; a contents tool
    gives every entry the requested URL as [id] and the URL of a result of
    the backing answer to that request as [url]. *)
Theorem C1_result_count_and_ids tavilyResponse params w :
  length (ExaSearchResponse.results
            (transformTavilyToExaFormat tavilyResponse))
  = length (TavilySearchResponse.results tavilyResponse) /\
  Forall (fun r => ExaSearchResult.id r = ExaSearchResult.url r)
    (ExaSearchResponse.results (transformTavilyToExaFormat tavilyResponse))
  /\
  exists out,
    fst (exaContentsToolForWorkflow params w) = Js.Fulfilled out /\
    fst (exaContentsTool params w) = Js.Fulfilled (Success out) /\
    Forall
      (fun r =>
         ExaSearchResult.id r ∈ ContentsParams.urls params /\
         exists urlObj response result,
           new_URL (ExaSearchResult.id r) = Js.Fulfilled urlObj /\
           outcome_of
             (fetchTavily "/search"
                (contentsRequest (ExaSearchResult.id r)
                   (URL.hostname urlObj)))
           = Js.Fulfilled response /\
           result ∈ TavilySearchResponse.results response /\
           ExaSearchResult.url r = TavilySearchResult.url result)
      (contents_results out).
Proof.
  split; [apply transform_results_length|].
  split; [apply transform_results_id_url|].
  eexists. rewrite (exaContentsToolForWorkflow_emits params w).
  rewrite (exaContentsTool_emits params w).
  split; [done|]. split; [done|]. simpl.
  apply Forall_forall. intros r Hr.
  apply list_elem_of_omap in Hr as (url & Hurl & Hsome).
  apply contents_entry_origin in Hsome
    as (urlObj & response & result & HU & HO & HH & ->). simpl.
  split; [done|].
  exists urlObj, response, (matchingResult urlObj response result).
  split; [done|]. split; [done|]. split; [|done].
  by apply matchingResult_elem.
Qed.

(** C5: the interactive search tool always resolves.  When [fetchTavily]
    fails with [e] it resolves to the error payload made of [e.message]
    and the fixed search [solution]; otherwise to the translated response
    with the fixed [guide].  Put against the workflow tool: the same
    answer plus the guide, or the payload of the failure the workflow tool
    raises. *)
Theorem C5_interactive_search_never_throws params w :
  exaSearchTool params w =
    match fetchTavily "/search" (searchRequest params) w with
    | (Js.Fulfilled tavilyResponse, w') =>
        (Js.Fulfilled
           (Success
              {| spread := transformTavilyToExaFormat tavilyResponse;
                 guide := search_guide |}), w')
    | (Js.Rejected e, w') =>
        (Js.Fulfilled
           (Failure
              {| isError := true;
                 error := Js.message e;
                 solution := search_solution |}), w')
    end /\
  exaSearchTool params w =
    match exaSearchToolForWorkflow params w with
    | (Js.Fulfilled result, w') =>
        (Js.Fulfilled
           (Success {| spread := result; guide := search_guide |}), w')
    | (Js.Rejected e, w') =>
        (Js.Fulfilled
           (Failure
              {| isError := true;
                 error := Js.message e;
                 solution := search_solution |}), w')
    end /\
  exists out w', exaSearchTool params w = (Js.Fulfilled out, w').
Proof.
  unfold exaSearchTool, exaSearchToolForWorkflow.
  unfold TsSafe.unwrap, TsSafe.ifFail, TsSafe.safe, bind, ret.
  destruct (fetchTavily "/search" (searchRequest params) w)
    as [[tavilyResponse|e] w']; eauto.
Qed.

(** C6: the callback of a URL never rejects, whatever becomes of its
    lookup, and resolves to an entry exactly when the URL parses, its
    lookup succeeds and the answer has at least one result; the tool
    resolves to the entries of these URLs, each as its callback gives it
    when run by itself, in the order of [urls], and the requests of every
    URL are sent. *)
Theorem C6_contents_partial_failure params :
  (forall url w,
     fst (contentsOfUrl params url w)
     = Js.Fulfilled (alone (contentsOfUrl params url))) /\
  (forall url,
     is_Some (alone (contentsOfUrl params url)) <->
     exists urlObj response,
       new_URL url = Js.Fulfilled urlObj /\
       outcome_of
         (fetchTavily "/search" (contentsRequest url (URL.hostname urlObj)))
       = Js.Fulfilled response /\
       TavilySearchResponse.results response <> []) /\
  (forall w,
     fst (exaContentsToolForWorkflow params w)
     = Js.Fulfilled
         {| contents_results :=
              omap (fun url => alone (contentsOfUrl params url))
                (ContentsParams.urls params) |} /\
     calls (snd (exaContentsToolForWorkflow params w))
     = (calls w
        ++ ContentsParams.urls params
             ≫= (fun url => requests_of (contentsOfUrl params url)))%list).
Proof.
  split; [apply contentsOfUrl_fst|]. split.
  - intros url. rewrite contentsOfUrl_alone. split.
    + intros [r Hr].
      destruct (new_URL url) as [urlObj|] eqn:Hurl; [|done].
      destruct (outcome_of _) as [response|] eqn:Hlookup; [|done].
      exists urlObj, response. split; [done|]. split; [done|].
      by destruct (TavilySearchResponse.results response).
    + intros (urlObj & response & -> & -> & Hne).
      destruct (TavilySearchResponse.results response); [done|].
      by eexists.
  - intros w. by rewrite (exaContentsToolForWorkflow_emits params w).
Qed.

(** C9, as the code has it: with [maxCharacters] absent (then 3000) or
    positive, the text of an entry is the first [maxCharacters] characters
    (UTF-16 code units, as [substring] counts them) of the raw content of
    the selected result when that raw content is present and not empty,
    and the content snippet, untruncated, when the raw content is absent
    or empty.  A raw content of 5000 characters and [maxCharacters = 3000]
    give its first 3000 characters. *)
Theorem C9_text_of_contents_entry params url w r :
  0 < default 3000 (ContentsParams.maxCharacters params) ->
  fst (contentsOfUrl params url w) = Js.Fulfilled (Some r) ->
  exists urlObj response result,
    new_URL url = Js.Fulfilled urlObj /\
    outcome_of
      (fetchTavily "/search" (contentsRequest url (URL.hostname urlObj)))
    = Js.Fulfilled response /\
    head (TavilySearchResponse.results response) = Some result /\
    let m := matchingResult urlObj response result in
    let limit :=
      Z.to_nat (default 3000 (ContentsParams.maxCharacters params)) in
    (forall raw,
       TavilySearchResult.raw_content m = Some raw -> raw <> [] ->
       ExaSearchResult.text r = take limit raw /\
       length (ExaSearchResult.text r) = Nat.min limit (length raw) /\
       exists rest, raw = (ExaSearchResult.text r ++ rest)%list) /\
    (TavilySearchResult.raw_content m = None \/
     TavilySearchResult.raw_content m = Some [] ->
     ExaSearchResult.text r = TavilySearchResult.content m) /\
    (forall raw,
       TavilySearchResult.raw_content m = Some raw ->
       length raw = 5000%nat ->
       ContentsParams.maxCharacters params = Some 3000 ->
       length (ExaSearchResult.text r) = 3000%nat /\
       exists rest, raw = (ExaSearchResult.text r ++ rest)%list).
Proof.
  intros Hpos Hr. rewrite contentsOfUrl_fst in Hr.
  injection Hr as Hr.
  apply contents_entry_origin in Hr
    as (urlObj & response & result & HU & HO & HH & Hr).
  exists urlObj, response, result.
  split; [done|]. split; [done|]. split; [done|].
  intros m limit. fold m in Hr. subst r.
  pose proof (contentsEntry_text params url m Hpos) as Htext.
  fold limit in Htext.
  assert (forall raw,
            TavilySearchResult.raw_content m = Some raw -> raw <> [] ->
            ExaSearchResult.text (contentsEntry params url m)
            = take limit raw /\
            length (ExaSearchResult.text (contentsEntry params url m))
            = Nat.min limit (length raw) /\
            exists rest,
              raw = (ExaSearchResult.text (contentsEntry params url m)
                     ++ rest)%list) as Hraw.
  { intros raw Hraw Hne. rewrite Htext, Hraw.
    rewrite decide_False by done.
    split; [done|]. split; [apply length_take|].
    exists (drop limit raw). by rewrite take_drop. }
  split; [exact Hraw|]. split.
  - intros [Hnone|Hempty]; rewrite Htext.
    + by rewrite Hnone.
    + by rewrite Hempty.
  - intros raw Hsome Hlen Hmax.
    assert (raw <> []) as Hne by (intros ->; done).
    destruct (Hraw raw Hsome Hne) as (_ & Hl & Hrest).
    split; [|done]. rewrite Hl, Hlen. unfold limit. rewrite Hmax. simpl. lia.
Qed.

(** C10: a URL that [new URL] rejects makes its callback resolve to no
    entry without a request being sent; with such a URL among [urls], both
    contents tools answer as they do without it, and send the same
    requests; and they answer as they do with, in its place, a URL whose
    lookup finds no result. *)
Theorem C10_unparseable_url_is_dropped url e maxCharacters livecrawl
    before behind :
  new_URL url = Js.Rejected e ->
  let params :=
    ContentsParams.mk (before ++ url :: behind) maxCharacters livecrawl in
  let without :=
    ContentsParams.mk (before ++ behind) maxCharacters livecrawl in
  (forall w,
     fst (contentsOfUrl params url w) = Js.Fulfilled None /\
     calls (snd (contentsOfUrl params url w)) = calls w) /\
  (forall w,
     fst (exaContentsToolForWorkflow params w)
     = fst (exaContentsToolForWorkflow without w) /\
     calls (snd (exaContentsToolForWorkflow params w))
     = calls (snd (exaContentsToolForWorkflow without w))) /\
  (forall w,
     fst (exaContentsTool params w) = fst (exaContentsTool without w) /\
     calls (snd (exaContentsTool params w))
     = calls (snd (exaContentsTool without w))) /\
  (forall url0 urlObj response,
     new_URL url0 = Js.Fulfilled urlObj ->
     outcome_of
       (fetchTavily "/search" (contentsRequest url0 (URL.hostname urlObj)))
     = Js.Fulfilled response ->
     TavilySearchResponse.results response = [] ->
     let params0 :=
       ContentsParams.mk (before ++ url0 :: behind) maxCharacters livecrawl
     in
     forall w,
       fst (exaContentsToolForWorkflow params w)
       = fst (exaContentsToolForWorkflow params0 w) /\
       fst (exaContentsTool params w) = fst (exaContentsTool params0 w)).
Proof.
  intros Hbad params without.
  pose proof (contentsOfUrl_bad_url params url e Hbad) as Hcb.
  destruct (emits_outcome _ _ _ _ Hcb) as (_ & Hreq & _).
  pose proof (emits_alone _ _ _ _ Hcb) as Halone.
  assert (omap (fun u => alone (contentsOfUrl params u))
            (before ++ url :: behind)%list
          = omap (fun u => alone (contentsOfUrl without u))
              (before ++ behind)%list) as Hres.
  { rewrite !omap_app. csimpl. by rewrite Halone. }
  assert ((before ++ url :: behind)%list
            ≫= (fun u => requests_of (contentsOfUrl params u))
          = (before ++ behind)%list
              ≫= (fun u => requests_of (contentsOfUrl without u))) as Hreqs.
  { rewrite !bind_app, bind_cons, Hreq. done. }
  split; [|split; [|split]].
  - intros w. rewrite (Hcb w). simpl. by rewrite app_nil_r.
  - intros w.
    rewrite (exaContentsToolForWorkflow_emits params w).
    rewrite (exaContentsToolForWorkflow_emits without w).
    simpl. by rewrite Hres, Hreqs.
  - intros w.
    rewrite (exaContentsTool_emits params w).
    rewrite (exaContentsTool_emits without w).
    simpl. by rewrite Hres, Hreqs.
  - intros url0 urlObj response HU HO Hnil params0 w.
    assert (alone (contentsOfUrl params0 url0) = None) as Halone0.
    { rewrite contentsOfUrl_alone, HU, HO, Hnil. done. }
    assert (omap (fun u => alone (contentsOfUrl params u))
              (before ++ url :: behind)%list
            = omap (fun u => alone (contentsOfUrl params0 u))
                (before ++ url0 :: behind)%list) as Hres0.
    { rewrite !omap_app. csimpl. by rewrite Halone, Halone0. }
    rewrite (exaContentsToolForWorkflow_emits params w).
    rewrite (exaContentsToolForWorkflow_emits params0 w).
    rewrite (exaContentsTool_emits params w).
    rewrite (exaContentsTool_emits params0 w).
    simpl. by rewrite Hres0.
Qed.

(** ** Further properties of the backing client *)

Lemma fetchTavily_calls endpoint body :
  emits (fetchTavily endpoint body)
    (outcome_of (fetchTavily endpoint body))
    (tavilyCalls API_KEY endpoint body) [].
Proof.
  unfold tavilyCalls.
  destruct API_KEY as [key|] eqn:HK.
  - destruct (Js.truthy key) eqn:HT.
    + destruct (fetchTavily_key endpoint body key HK HT) as [a Ha].
      by destruct (emits_outcome _ _ _ _ Ha) as (-> & _ & _).
    + assert (Js.truthy_opt API_KEY = false) as Hno by by rewrite HK.
      pose proof (fetchTavily_no_key endpoint body Hno) as Ha.
      by destruct (emits_outcome _ _ _ _ Ha) as (-> & _ & _).
  - assert (Js.truthy_opt API_KEY = false) as Hno by by rewrite HK.
    pose proof (fetchTavily_no_key endpoint body Hno) as Ha.
    by destruct (emits_outcome _ _ _ _ Ha) as (-> & _ & _).
Qed.

Lemma fetchTavily_network_failure endpoint body key e w :
  API_KEY = Some key -> Js.truthy key = true ->
  fetch (tavilyRequest key endpoint body) = Js.Rejected e ->
  fst (fetchTavily endpoint body w) = Js.Rejected e.
Proof.
  intros HK HT HF. unfold fetchTavily. rewrite HK, HT.
  fold (tavilyRequest key endpoint body).
  unfold bind, await_fetch. by rewrite HF.
Qed.

Lemma ok_range response :
  Http.ok response = true <-> 200 <= Http.status response <= 299.
Proof.
  unfold Http.ok. rewrite andb_true_iff, !Z.leb_le. tauto.
Qed.

(** X1: a call of [fetchTavily] makes one attempt: with a truthy key it
    sends exactly one request, whatever the answer, and without one it
    sends none; it logs nothing and leaves the environment alone. *)
Theorem X1_fetchTavily_single_attempt endpoint body w :
  snd (fetchTavily endpoint body w)
  = after w (tavilyCalls API_KEY endpoint body) [] /\
  (length (tavilyCalls API_KEY endpoint body) <= 1)%nat /\
  (Js.truthy_opt API_KEY = true ->
   length (tavilyCalls API_KEY endpoint body) = 1%nat).
Proof.
  split; [by rewrite (fetchTavily_calls endpoint body w)|].
  unfold tavilyCalls, Js.truthy_opt.
  destruct API_KEY as [key|]; [destruct (Js.truthy key)|]; simpl;
    split; first [lia | done].
Qed.

(** X2: [fetchTavily] fulfils exactly when a truthy key is configured, the
    response has a status within 200-299 and its body parses; the value is
    the parsed body. *)
Theorem X2_fetchTavily_fulfils_iff endpoint body w tavilyResponse :
  fst (fetchTavily endpoint body w) = Js.Fulfilled tavilyResponse <->
  exists key response,
    API_KEY = Some key /\ Js.truthy key = true /\
    fetch (tavilyRequest key endpoint body) = Js.Fulfilled response /\
    200 <= Http.status response <= 299 /\
    Http.json response = Js.Fulfilled tavilyResponse.
Proof.
  split.
  - intros Hfst.
    destruct (Js.truthy_opt API_KEY) eqn:HT.
    2:{ rewrite (fetchTavily_no_key endpoint body HT w) in Hfst. done. }
    unfold Js.truthy_opt in HT.
    destruct API_KEY as [key|] eqn:HK; [|done].
    destruct (fetch (tavilyRequest key endpoint body)) as [response|e]
      eqn:HF.
    2:{ by rewrite (fetchTavily_network_failure _ _ key e w HK HT HF)
          in Hfst. }
    rewrite (fetchTavily_response _ _ key response w HK HT HF) in Hfst.
    exists key, response.
    destruct (Http.status response =? 401)%Z; [done|].
    destruct (Http.status response =? 429)%Z; [done|].
    destruct (Http.ok response) eqn:Hok; [|done].
    by apply ok_range in Hok.
  - intros (key & response & HK & HT & HF & Hrange & Hjson).
    rewrite (fetchTavily_response _ _ key response w HK HT HF).
    assert ((Http.status response =? 401)%Z = false) as -> by lia.
    assert ((Http.status response =? 429)%Z = false) as -> by lia.
    apply ok_range in Hrange. by rewrite Hrange.
Qed.

(** X3: the failures [fetchTavily] does not make itself come through
    unchanged: the rejection of [fetch], and the rejection of
    [response.json()] on a response within 200-299. *)
Theorem X3_fetchTavily_passes_failures_through endpoint body w key e :
  API_KEY = Some key -> Js.truthy key = true ->
  (fetch (tavilyRequest key endpoint body) = Js.Rejected e ->
   fst (fetchTavily endpoint body w) = Js.Rejected e) /\
  (forall response,
     fetch (tavilyRequest key endpoint body) = Js.Fulfilled response ->
     200 <= Http.status response <= 299 ->
     Http.json response = Js.Rejected e ->
     fst (fetchTavily endpoint body w) = Js.Rejected e).
Proof.
  intros HK HT. split.
  - by apply fetchTavily_network_failure.
  - intros response HF Hrange Hjson.
    rewrite (fetchTavily_response _ _ key response w HK HT HF).
    assert ((Http.status response =? 401)%Z = false) as -> by lia.
    assert ((Http.status response =? 429)%Z = false) as -> by lia.
    apply ok_range in Hrange. by rewrite Hrange.
Qed.

(** ** Further properties of the search tools *)

(** X4: the two search tools leave the same world behind: one request to
    [/search] carrying the translated payload when a truthy key is
    configured, none otherwise, and nothing logged. *)
Theorem X4_search_tools_send_one_request params w :
  snd (exaSearchToolForWorkflow params w)
  = after w (tavilyCalls API_KEY "/search" (searchRequest params)) [] /\
  snd (exaSearchTool params w)
  = after w (tavilyCalls API_KEY "/search" (searchRequest params)) [].
Proof.
  pose proof (fetchTavily_calls "/search" (searchRequest params) w) as Hcall.
  unfold exaSearchToolForWorkflow, exaSearchTool.
  unfold TsSafe.unwrap, TsSafe.ifFail, TsSafe.safe, bind, ret.
  rewrite Hcall.
  by destruct (outcome_of (fetchTavily "/search" (searchRequest params))).
Qed.

(** X5: the inputs the schemas accept and the code never reads have no
    effect: [maxCharacters] on the two search tools, [livecrawl] on the
    two contents tools. *)
Theorem X5_unread_inputs_have_no_effect :
  (forall query numResults type category includeDomains excludeDomains
          startPublishedDate endPublishedDate maxCharacters maxCharacters',
     let given :=
       SearchParams.mk query numResults type category includeDomains
         excludeDomains startPublishedDate endPublishedDate maxCharacters in
     let other :=
       SearchParams.mk query numResults type category includeDomains
         excludeDomains startPublishedDate endPublishedDate maxCharacters' in
     exaSearchToolForWorkflow given = exaSearchToolForWorkflow other /\
     exaSearchTool given = exaSearchTool other) /\
  (forall urls maxCharacters livecrawl livecrawl',
     let given := ContentsParams.mk urls maxCharacters livecrawl in
     let other := ContentsParams.mk urls maxCharacters livecrawl' in
     exaContentsToolForWorkflow given = exaContentsToolForWorkflow other /\
     exaContentsTool given = exaContentsTool other).
Proof. by repeat split. Qed.

(** X6: a category other than ["news"] acts on the two search tools as no
    category at all. *)
Theorem X6_other_categories_have_no_effect query numResults type category
    includeDomains excludeDomains startPublishedDate endPublishedDate
    maxCharacters :
  category <> Some "news" ->
  let given :=
    SearchParams.mk query numResults type category includeDomains
      excludeDomains startPublishedDate endPublishedDate maxCharacters in
  let without :=
    SearchParams.mk query numResults type None includeDomains
      excludeDomains startPublishedDate endPublishedDate maxCharacters in
  searchRequest given = searchRequest without /\
  exaSearchToolForWorkflow given = exaSearchToolForWorkflow without /\
  exaSearchTool given = exaSearchTool without.
Proof.
  intros Hcat given without.
  assert (searchRequest given = searchRequest without) as Hreq.
  { unfold searchRequest, given, without; simpl.
    destruct category as [c|]; [|done].
    destruct (String.eqb_spec c "news") as [->|_]; done. }
  split; [done|].
  unfold exaSearchToolForWorkflow, exaSearchTool. by rewrite Hreq.
Qed.

(** ** Further properties of the contents tools *)

(** What the callback of one URL sends. *)
Lemma contentsOfUrl_effects params url :
  requests_of (contentsOfUrl params url)
  = match new_URL url with
    | Js.Fulfilled urlObj =>
        tavilyCalls API_KEY "/search"
          (contentsRequest url (URL.hostname urlObj))
    | Js.Rejected _ => []
    end.
Proof.
  destruct (new_URL url) as [urlObj|e] eqn:Hurl.
  - pose proof (fetchTavily_calls "/search"
                  (contentsRequest url (URL.hostname urlObj))) as Hf.
    destruct (outcome_of _) as [response|e].
    + pose proof (contentsOfUrl_lookup_ok params url urlObj response _
                    Hurl Hf) as He.
      by destruct (emits_outcome _ _ _ _ He) as (_ & -> & _).
    + pose proof (contentsOfUrl_lookup_fails params url urlObj e _
                    Hurl Hf) as He.
      by destruct (emits_outcome _ _ _ _ He) as (_ & -> & _).
  - pose proof (contentsOfUrl_bad_url params url e Hurl) as He.
    by destruct (emits_outcome _ _ _ _ He) as (_ & -> & _).
Qed.

Lemma size_list_to_set_disj (lines : list (string * Js.Error)) :
  size (list_to_set_disj lines : gmultiset (string * Js.Error))
  = length lines.
Proof.
  induction lines as [|line lines IH]; [done|].
  rewrite list_to_set_disj_cons, gmultiset_size_disj_union.
  rewrite gmultiset_size_singleton, IH. done.
Qed.

(** X7: the interactive contents tool never answers with an error
    payload: it resolves to what the workflow tool resolves to, and
    leaves the same world behind. *)
Theorem X7_interactive_contents_never_fails params w :
  exists out w',
    exaContentsToolForWorkflow params w = (Js.Fulfilled out, w') /\
    exaContentsTool params w = (Js.Fulfilled (Success out), w').
Proof.
  eexists _, _.
  rewrite (exaContentsToolForWorkflow_emits params w).
  by rewrite (exaContentsTool_emits params w).
Qed.

(** X8: without a key the contents tools do not report the configuration
    error: they answer with an empty list, send nothing, and log one line
    for every URL. *)
Theorem X8_contents_without_key params w :
  Js.truthy_opt API_KEY = false ->
  fst (exaContentsToolForWorkflow params w)
  = Js.Fulfilled {| contents_results := [] |} /\
  fst (exaContentsTool params w)
  = Js.Fulfilled (Success {| contents_results := [] |}) /\
  calls (snd (exaContentsToolForWorkflow params w)) = calls w /\
  size (console (snd (exaContentsToolForWorkflow params w)))
  = (size (console w) + length (ContentsParams.urls params))%nat.
Proof.
  intros Hno.
  pose proof (fun endpoint body => fetchTavily_no_key endpoint body Hno)
    as Hfail.
  assert (forall url,
            alone (contentsOfUrl params url) = None /\
            requests_of (contentsOfUrl params url) = [] /\
            length (contentsErrors url) = 1%nat) as Hurl.
  { intros url.
    rewrite contentsOfUrl_alone, contentsOfUrl_effects.
    unfold contentsErrors.
    destruct (new_URL url) as [urlObj|e]; [|done].
    destruct (emits_outcome _ _ _ _
                (Hfail "/search" (contentsRequest url (URL.hostname urlObj))))
      as (-> & _ & _).
    unfold tavilyCalls. unfold Js.truthy_opt in Hno.
    by destruct API_KEY as [key|]; [rewrite Hno|]. }
  rewrite (exaContentsToolForWorkflow_emits params w).
  rewrite (exaContentsTool_emits params w). simpl.
  assert (omap (fun url => alone (contentsOfUrl params url))
            (ContentsParams.urls params) = []) as ->.
  { induction (ContentsParams.urls params) as [|url urls IH]; [done|].
    csimpl. by destruct (Hurl url) as (-> & _ & _). }
  assert (ContentsParams.urls params
            ≫= (fun url => requests_of (contentsOfUrl params url)) = [])
    as ->.
  { induction (ContentsParams.urls params) as [|url urls IH]; [done|].
    csimpl. by destruct (Hurl url) as (_ & -> & _). }
  rewrite app_nil_r, gmultiset_size_disj_union, size_list_to_set_disj.
  repeat split. f_equal.
  induction (ContentsParams.urls params) as [|url urls IH]; [done|].
  csimpl. rewrite length_app, IH. by destruct (Hurl url) as (_ & _ & ->).
Qed.

(** X9: the entries of a contents answer keep the order of [urls]: their
    [id]s are obtained from [urls] by leaving URLs out, so there are never
    more entries than URLs. *)
Theorem X9_contents_ids_follow_urls params w :
  exists out,
    fst (exaContentsToolForWorkflow params w) = Js.Fulfilled out /\
    ExaSearchResult.id <$> contents_results out
      `sublist_of` ContentsParams.urls params /\
    (length (contents_results out) <= length (ContentsParams.urls params))%nat.
Proof.
  eexists. rewrite (exaContentsToolForWorkflow_emits params w). simpl.
  split; [done|].
  assert (ExaSearchResult.id
            <$> omap (fun url => alone (contentsOfUrl params url))
                  (ContentsParams.urls params)
          `sublist_of` ContentsParams.urls params) as Hsub.
  { induction (ContentsParams.urls params) as [|url urls IH]; [done|].
    csimpl.
    destruct (alone (contentsOfUrl params url)) as [r|] eqn:Hr; csimpl.
    - apply contents_entry_origin in Hr as (? & ? & ? & _ & _ & _ & ->).
      simpl. by apply sublist_skip.
    - by apply sublist_cons. }
  split; [done|].
  apply sublist_length in Hsub. by rewrite length_fmap in Hsub.
Qed.

(** X10: what the contents tools send: for every URL that parses, in the
    order of [urls], the requests of one [fetchTavily] call asking, inside
    the host of the URL, for one result with raw content, the URL itself
    being the query; nothing for a URL that does not parse. *)
Theorem X10_contents_request_log params w :
  calls (snd (exaContentsToolForWorkflow params w))
  = (calls w
     ++ ContentsParams.urls params
          ≫= (fun url =>
                match new_URL url with
                | Js.Fulfilled urlObj =>
                    tavilyCalls API_KEY "/search"
                      (contentsRequest url (URL.hostname urlObj))
                | Js.Rejected _ => []
                end))%list /\
  calls (snd (exaContentsTool params w))
  = calls (snd (exaContentsToolForWorkflow params w)).
Proof.
  rewrite (exaContentsToolForWorkflow_emits params w).
  rewrite (exaContentsTool_emits params w). simpl.
  split; [|done]. f_equal.
  apply list_bind_ext; [|done].
  intros url. by rewrite contentsOfUrl_effects.
Qed.

(** X11: what the contents tools log: one line, naming the URL and
    holding the error, for every URL that does not parse or whose lookup
    fails, and nothing for a URL whose lookup returns, with or without
    results.  The lines are counted, not ordered: a URL that does not
    parse is logged while the callbacks are started, a failed lookup when
    its answer comes in. *)
Theorem X11_contents_console_log params w :
  console (snd (exaContentsToolForWorkflow params w))
  = console w
    ⊎ list_to_set_disj
        (ContentsParams.urls params
           ≫= (fun url =>
                 match new_URL url with
                 | Js.Fulfilled urlObj =>
                     match outcome_of
                             (fetchTavily "/search"
                                (contentsRequest url (URL.hostname urlObj)))
                     with
                     | Js.Fulfilled _ => []
                     | Js.Rejected e =>
                         [("Error fetching content for " +:+ url +:+ ":", e)]
                     end
                 | Js.Rejected e =>
                     [("Error fetching content for " +:+ url +:+ ":", e)]
                 end)) /\
  console (snd (exaContentsTool params w))
  = console (snd (exaContentsToolForWorkflow params w)).
Proof.
  rewrite (exaContentsToolForWorkflow_emits params w).
  by rewrite (exaContentsTool_emits params w).
Qed.

(** X15: every legacy result the tools produce has the empty string as
    author and carries a score; the entries of the contents tools never
    carry an image. *)
Theorem X15_author_score_image tavilyResponse params w :
  Forall
    (fun r =>
       ExaSearchResult.author r = "" /\ is_Some (ExaSearchResult.score r))
    (ExaSearchResponse.results (transformTavilyToExaFormat tavilyResponse))
  /\
  exists out,
    fst (exaContentsToolForWorkflow params w) = Js.Fulfilled out /\
    fst (exaContentsTool params w) = Js.Fulfilled (Success out) /\
    Forall
      (fun r =>
         ExaSearchResult.author r = "" /\
         is_Some (ExaSearchResult.score r) /\
         ExaSearchResult.image r = None)
      (contents_results out).
Proof.
  split.
  - apply Forall_lookup. intros i r Hr.
    rewrite transform_results_lookup in Hr.
    destruct (TavilySearchResponse.results tavilyResponse !! i);
      simplify_eq/=. by split.
  - eexists. rewrite (exaContentsToolForWorkflow_emits params w).
    rewrite (exaContentsTool_emits params w).
    split; [done|]. split; [done|]. simpl.
    apply Forall_forall. intros r Hr.
    apply list_elem_of_omap in Hr as (url & _ & Hsome).
    apply contents_entry_origin in Hsome as (? & ? & ? & _ & _ & _ & ->).
    by repeat split.
Qed.

(** X22: counts outside the schema's range: a [numResults] or a
    [maxCharacters] of zero acts as an absent one, and with a negative
    [maxCharacters] the text of an entry is the content snippet, whatever
    the raw content. *)
Theorem X22_counts_out_of_range :
  (forall query type category includeDomains excludeDomains
          startPublishedDate endPublishedDate maxCharacters,
     let zero :=
       SearchParams.mk query (Some 0) type category includeDomains
         excludeDomains startPublishedDate endPublishedDate maxCharacters in
     let absent :=
       SearchParams.mk query None type category includeDomains
         excludeDomains startPublishedDate endPublishedDate maxCharacters in
     exaSearchToolForWorkflow zero = exaSearchToolForWorkflow absent /\
     exaSearchTool zero = exaSearchTool absent) /\
  (forall urls livecrawl,
     let zero := ContentsParams.mk urls (Some 0) livecrawl in
     let absent := ContentsParams.mk urls None livecrawl in
     exaContentsToolForWorkflow zero = exaContentsToolForWorkflow absent /\
     exaContentsTool zero = exaContentsTool absent) /\
  (forall params url m n,
     ContentsParams.maxCharacters params = Some n -> n < 0 ->
     ExaSearchResult.text (contentsEntry params url m)
     = TavilySearchResult.content m).
Proof.
  split; [by repeat split|]. split; [by repeat split|].
  intros params url m n Hmax Hneg. unfold contentsEntry; simpl.
  rewrite Hmax. simpl.
  destruct (Z.eqb_spec n 0) as [->|_]; [lia|].
  destruct (TavilySearchResult.raw_content m) as [raw|]; simpl; [|done].
  assert (Js.substring raw 0 n = []) as ->; [|done].
  unfold Js.substring.
  replace (Z.max 0 (Z.min n (Z.of_nat (length raw)))) with 0 by lia.
  replace (Z.max 0 (Z.min 0 (Z.of_nat (length raw)))) with 0 by lia.
  done.
Qed.

End Properties.

(** * Properties of the model registry *)

Lemma append_cons c s t : String c s +:+ t = String c (s +:+ t).
Proof. reflexivity. Qed.

Lemma append_nil_l t : "" +:+ t = t.
Proof. reflexivity. Qed.

Lemma remove_trailing_slashes_decomp s :
  exists rest,
    s = Models.remove_trailing_slashes s +:+ rest /\
    Models.all_slashes rest = true.
Proof.
  induction s as [|c s (rest & Hs & Hrest)]; simpl.
  - by exists "".
  - destruct (Models.remove_trailing_slashes s) as [|c' t] eqn:Hrem.
    + rewrite append_nil_l in Hs. subst rest.
      destruct (Ascii.eqb_spec c (Ascii.ascii_of_nat 47)) as [->|Hc].
      * exists (String (Ascii.ascii_of_nat 47) s). split; [done|].
        simpl. by rewrite Hrest.
      * exists s. by rewrite append_cons, append_nil_l.
    + exists rest. split; [|done]. rewrite append_cons. by f_equal.
Qed.

Lemma remove_trailing_slashes_end s t :
  Models.remove_trailing_slashes s <> t +:+ "/".
Proof.
  revert t. induction s as [|c s IH]; intros t; simpl.
  - by destruct t.
  - destruct (Models.remove_trailing_slashes s) as [|c' r] eqn:Hrem.
    + destruct (Ascii.eqb_spec c (Ascii.ascii_of_nat 47)) as [->|Hc].
      * by destruct t.
      * destruct t as [|c2 [|c3 t]]; [|done..].
        rewrite append_nil_l. intros [= ->]. by apply Hc.
    + destruct t as [|c2 t].
      * rewrite append_nil_l. by intros [= -> ?].
      * rewrite append_cons. intros [= -> Ht]. by apply (IH t).
Qed.

Lemma remove_trailing_slashes_only s :
  Models.remove_trailing_slashes s = "" <-> Models.all_slashes s = true.
Proof.
  induction s as [|c s IH]; simpl; [done|].
  destruct (Models.remove_trailing_slashes s) as [|c' r] eqn:Hrem.
  - destruct (Ascii.eqb_spec c (Ascii.ascii_of_nat 47)) as [->|Hc]; simpl.
    + split; [|done]. intros _. by apply IH.
    + by split.
  - split; [done|]. rewrite andb_true_iff. intros [_ Hs].
    by apply IH in Hs.
Qed.

(** X16: whatever [GROQ_BASE_URL] holds, the base URL in use is not empty
    and does not end in a slash; it is the value of the variable without
    the slashes it ends in, when something is left of it, and the SDK's
    address when the variable is unset, empty or made of slashes only. *)
Theorem X16_groqBaseURL_has_no_trailing_slash env :
  Models.groqBaseURL env <> "" /\
  (forall t, Models.groqBaseURL env <> t +:+ "/") /\
  (forall baseURL,
     env !! "GROQ_BASE_URL" = Some baseURL ->
     Models.all_slashes baseURL = false ->
     exists rest,
       baseURL = Models.groqBaseURL env +:+ rest /\
       Models.all_slashes rest = true) /\
  (forall baseURL,
     env !! "GROQ_BASE_URL" = Some baseURL ->
     Models.all_slashes baseURL = true ->
     Models.groqBaseURL env = "https://api.groq.com/openai/v1") /\
  (env !! "GROQ_BASE_URL" = None ->
   Models.groqBaseURL env = "https://api.groq.com/openai/v1").
Proof.
  unfold Models.groqBaseURL, Models.getGroqBaseURL.
  destruct (env !! "GROQ_BASE_URL") as [baseURL|]; simpl.
  2:{ split; [done|]. split; [|by repeat split].
      intros t. by do 31 (destruct t as [|? t]; [done|]). }
  destruct (Js.truthy baseURL) eqn:Htruthy; simpl.
  - destruct (Js.truthy (Models.remove_trailing_slashes baseURL))
      eqn:Hleft.
    + unfold Js.truthy in Hleft. apply negb_true_iff in Hleft.
      apply String.eqb_neq in Hleft.
      split; [done|]. split; [apply remove_trailing_slashes_end|].
      split; [|split; [|done]].
      * intros ? [= <-] _. apply remove_trailing_slashes_decomp.
      * intros ? [= <-] Hall.
        by apply remove_trailing_slashes_only in Hall.
    + unfold Js.truthy in Hleft. apply negb_false_iff in Hleft.
      apply String.eqb_eq in Hleft.
      apply remove_trailing_slashes_only in Hleft.
      split; [done|]. split.
      { intros t. by do 31 (destruct t as [|? t]; [done|]). }
      split; [|by repeat split].
      intros ? [= <-] Hnot. by rewrite Hleft in Hnot.
  - unfold Js.truthy in Htruthy. apply negb_false_iff in Htruthy.
    apply String.eqb_eq in Htruthy. subst baseURL.
    split; [done|]. split.
    { intros t. by do 31 (destruct t as [|? t]; [done|]). }
    split; [|by repeat split].
    by intros ? [= <-].
Qed.


(** * Properties of the chart's naming helpers *)

Lemma trunc_length c s :
  String.length (Helm.trunc c s) = Nat.min c (String.length s).
Proof.
  unfold Helm.trunc. destruct (Nat.ltb_spec c (String.length s)).
  - rewrite substring_0_length. lia.
  - lia.
Qed.

Lemma trunc_short c s :
  (String.length s <= c)%nat -> Helm.trunc c s = s.
Proof.
  unfold Helm.trunc. intros Hle.
  destruct (Nat.ltb_spec c (String.length s)); [lia|done].
Qed.

Lemma trimSuffix_nil suffix : Helm.trimSuffix suffix "" = "".
Proof. by destruct suffix. Qed.

Lemma trimSuffix_cons suffix c s :
  Helm.trimSuffix suffix (String c s)
  = if (String c s =? suffix)%string then ""
    else String c (Helm.trimSuffix suffix s).
Proof. reflexivity. Qed.

Lemma trimSuffix_length suffix s :
  (String.length (Helm.trimSuffix suffix s) <= String.length s)%nat.
Proof.
  induction s as [|c s IH].
  - rewrite trimSuffix_nil. simpl. lia.
  - rewrite trimSuffix_cons.
    destruct (String c s =? suffix)%string; simpl; lia.
Qed.

Lemma trimSuffix_dash_empty s :
  Helm.trimSuffix "-" s = "" -> s = "" \/ s = "-".
Proof.
  destruct s as [|c s]; [by left|]. rewrite trimSuffix_cons.
  destruct (String.eqb_spec (String c s) "-") as [->|_]; [by right|done].
Qed.

(** After [trimSuffix "-"] a string ends in a dash only when it ended in
    two. *)
Lemma trimSuffix_dash_end s t :
  Helm.trimSuffix "-" s = t +:+ "-" -> s = t +:+ "--".
Proof.
  revert t. induction s as [|c s IH]; intros t.
  - rewrite trimSuffix_nil. by destruct t.
  - rewrite trimSuffix_cons.
    destruct (String.eqb_spec (String c s) "-") as [_|Hne];
      [by destruct t|].
    destruct t as [|c2 t].
    + rewrite !append_nil_l. intros [= -> Hs].
      apply trimSuffix_dash_empty in Hs as [->| ->]; done.
    + rewrite !append_cons. intros [= -> Hs]. f_equal. by apply IH.
Qed.

Lemma trimSuffix_keeps s :
  (forall t, s <> t +:+ "-") -> Helm.trimSuffix "-" s = s.
Proof.
  induction s as [|c s IH]; intros Hend; [done|].
  rewrite trimSuffix_cons.
  destruct (String.eqb_spec (String c s) "-") as [Heq|_].
  - by destruct (Hend "").
  - f_equal. apply IH. intros t ->. by apply (Hend (String c t)).
Qed.

Lemma contains_plus_cons c s :
  Helm.contains "+" (String c s)
  = Ascii.eqb (Ascii.ascii_of_nat 43) c || Helm.contains "+" s.
Proof.
  change (Helm.contains "+" (String c s))
    with (String.prefix "+" (String c s) || Helm.contains "+" s).
  f_equal.
  destruct (Ascii.eqb_spec (Ascii.ascii_of_nat 43) c) as [<-|Hc].
  - by destruct s.
  - simpl. by case_match.
Qed.

Lemma replace_plus_clean s : Helm.contains "+" (Helm.replace_plus s) = false.
Proof.
  induction s as [|c s IH]; [done|].
  change (Helm.replace_plus (String c s))
    with (String (if Ascii.eqb c (Ascii.ascii_of_nat 43)
                  then Ascii.ascii_of_nat 95 else c)
            (Helm.replace_plus s)).
  rewrite contains_plus_cons, IH, orb_false_r.
  destruct (Ascii.eqb_spec c (Ascii.ascii_of_nat 43)) as [->|Hc]; [done|].
  apply Ascii.eqb_neq. congruence.
Qed.

Lemma substring_0_clean n s :
  Helm.contains "+" s = false ->
  Helm.contains "+" (String.substring 0 n s) = false.
Proof.
  revert n. induction s as [|c s IH]; intros [|n] Hs; try done.
  change (String.substring 0 (S n) (String c s))
    with (String c (String.substring 0 n s)).
  rewrite contains_plus_cons in *.
  apply orb_false_iff in Hs as [-> Hs]. by rewrite IH.
Qed.

Lemma trimSuffix_clean suffix s :
  Helm.contains "+" s = false ->
  Helm.contains "+" (Helm.trimSuffix suffix s) = false.
Proof.
  induction s as [|c s IH]; intros Hs.
  - by rewrite trimSuffix_nil.
  - rewrite trimSuffix_cons.
    destruct (String c s =? suffix)%string; [done|].
    rewrite contains_plus_cons in *.
    apply orb_false_iff in Hs as [-> Hs]. by rewrite IH.
Qed.

(** X18: the three names the chart derives are at most 63 bytes long,
    whatever the chart name, the release name and the overrides; so is the
    service account name when the account is created and not named. *)
Theorem X18_names_fit_in_63_bytes ctx :
  (String.length (Helm.name ctx) <= 63)%nat /\
  (String.length (Helm.fullname ctx) <= 63)%nat /\
  (String.length (Helm.chart ctx) <= 63)%nat /\
  (Helm.ServiceAccount.create (Helm.Values.serviceAccount (Helm.values ctx))
   = true ->
   Helm.is_set
     (Helm.ServiceAccount.name (Helm.Values.serviceAccount (Helm.values ctx)))
   = false ->
   (String.length (Helm.serviceAccountName ctx) <= 63)%nat).
Proof.
  assert (forall s,
            (String.length (Helm.trimSuffix "-" (Helm.trunc 63 s)) <= 63)%nat)
    as Hcut.
  { intros s. pose proof (trimSuffix_length "-" (Helm.trunc 63 s)).
    pose proof (trunc_length 63 s). lia. }
  assert (String.length (Helm.fullname ctx) <= 63)%nat as Hfull.
  { unfold Helm.fullname. repeat case_match; apply Hcut. }
  split; [apply Hcut|]. split; [done|]. split; [apply Hcut|].
  intros Hcreate Hname. unfold Helm.serviceAccountName.
  by rewrite Hcreate, Hname.
Qed.

(** X19: the chart label holds no plus sign, whatever the chart name and
    version. *)
Theorem X19_chart_label_has_no_plus ctx :
  Helm.contains "+" (Helm.chart ctx) = false.
Proof.
  unfold Helm.chart. apply trimSuffix_clean.
  unfold Helm.trunc. case_match; [|apply replace_plus_clean].
  apply substring_0_clean, replace_plus_clean.
Qed.

(** X20: only one dash is trimmed: the name and the chart label end in a
    dash exactly when the 63 bytes they are cut from end in two. *)
Theorem X20_one_trailing_dash_is_trimmed ctx t :
  (Helm.name ctx = t +:+ "-" <->
   Helm.trunc 63
     (Helm.default_ (Helm.Chart.Name (Helm.chart_ ctx))
        (Helm.Values.nameOverride (Helm.values ctx)))
   = t +:+ "--") /\
  (Helm.chart ctx = t +:+ "-" <->
   Helm.trunc 63
     (Helm.replace_plus
        (Helm.Chart.Name (Helm.chart_ ctx) +:+ "-"
         +:+ Helm.Chart.Version (Helm.chart_ ctx)))
   = t +:+ "--").
Proof.
  assert (forall s, Helm.trimSuffix "-" (s +:+ "--") = s +:+ "-") as Hback.
  { induction s as [|c s IH]; [done|].
    rewrite !append_cons, trimSuffix_cons.
    destruct (String.eqb_spec (String c (s +:+ "--")) "-") as [Heq|_].
    - injection Heq as _ Heq. by destruct s.
    - by rewrite IH. }
  unfold Helm.name, Helm.chart.
  split; (split; [apply trimSuffix_dash_end | intros ->; apply Hback]).
Qed.

(** X21: a full name is the override when one is set, the release name
    alone when it already contains the chart's name, and the release name,
    a dash and the name otherwise, each as it is when it fits in 63 bytes
    and does not end in a dash. *)
Theorem X21_fullname_of_well_formed_names ctx :
  let name :=
    Helm.default_ (Helm.Chart.Name (Helm.chart_ ctx))
      (Helm.Values.nameOverride (Helm.values ctx)) in
  let chosen :=
    match Helm.Values.fullnameOverride (Helm.values ctx) with
    | Some override =>
        if (override =? "")%string then
          if Helm.contains name (Helm.Release.Name (Helm.release ctx))
          then Helm.Release.Name (Helm.release ctx)
          else Helm.Release.Name (Helm.release ctx) +:+ "-" +:+ name
        else override
    | None =>
        if Helm.contains name (Helm.Release.Name (Helm.release ctx))
        then Helm.Release.Name (Helm.release ctx)
        else Helm.Release.Name (Helm.release ctx) +:+ "-" +:+ name
    end in
  (String.length chosen <= 63)%nat ->
  (forall t, chosen <> t +:+ "-") ->
  Helm.fullname ctx = chosen.
Proof.
  intros name chosen Hlen Hend.
  assert (Helm.trimSuffix "-" (Helm.trunc 63 chosen) = chosen) as Hid.
  { rewrite trunc_short by done. by apply trimSuffix_keeps. }
  unfold Helm.fullname. fold name.
  unfold chosen in *. unfold Helm.is_set.
  destruct (Helm.Values.fullnameOverride (Helm.values ctx)) as [o|]; simpl.
  - destruct (o =? "")%string; simpl; [|done].
    by destruct (Helm.contains name _).
  - by destruct (Helm.contains name _).
Qed.

(** * Closed instances *)

Import Example.

(** The example of the specification for the images list: one image, two
    results. *)
Example one_image_two_results :
  ExaSearchResult.image
    <$> ExaSearchResponse.results
          (transformTavilyToExaFormat
             (response_of [result_b; result_home]
                (Some [ImageString "http://a.png"])))
  = [Some "http://a.png"; None].
Proof. reflexivity. Qed.

(** The example of the specification for the contents tool: the lookup of
    the first URL fails, the second succeeds. *)
Example a_throws_b_is_returned :
  fst (exaContentsToolForWorkflow with_key a_fails_b_succeeds new_URL
         (contents_of [url_a; url_b]) (world with_key))
  = Js.Fulfilled
      {| contents_results :=
           [contentsEntry (contents_of [url_a; url_b]) url_b result_b] |}.
Proof. vm_compute. reflexivity. Qed.

(** C1 as stated fails for the contents tools: asked for
    [https://b.com/y], with a backing answer whose only result is
    [https://b.com/], the entry has the former as [id] and the latter as
    [url]. *)
Lemma C1_counterexample :
  ~ (forall load_env fetch new_URL params w out,
       fst (exaContentsToolForWorkflow load_env fetch new_URL params w)
       = Js.Fulfilled out ->
       Forall (fun r => ExaSearchResult.id r = ExaSearchResult.url r)
         (contents_results out)).
Proof.
  intros H.
  specialize
    (H with_key (always (http_ok (response_of [result_home] None))) new_URL
       (contents_of [url_b]) (world with_key)
       {| contents_results :=
            [contentsEntry (contents_of [url_b]) url_b result_home] |}).
  assert (ExaSearchResult.id
            (contentsEntry (contents_of [url_b]) url_b result_home)
          = ExaSearchResult.url
              (contentsEntry (contents_of [url_b]) url_b result_home))
    as Heq.
  { apply (Forall_inv (H ltac:(vm_compute; reflexivity))). }
  vm_compute in Heq. discriminate Heq.
Qed.

(** C2 as stated fails: with [tvly-first] in the environment when the
    module is evaluated and [tvly-second] there when the call is made, the
    request carries [tvly-first]. *)
Lemma C2_counterexample :
  ~ (forall load_env fetch endpoint body w key,
       process_env w !! "TAVILY_API_KEY" = Some key ->
       Js.truthy key = true ->
       calls (snd (fetchTavily load_env fetch endpoint body w))
       = (calls w ++ [tavilyRequest key endpoint body])%list).
Proof.
  intros H.
  specialize
    (H with_key (always (http_ok (response_of [] None))) "/search"
       (searchRequest search_q) (world rotated_key) "tvly-second"
       ltac:(vm_compute; reflexivity) ltac:(reflexivity)).
  vm_compute in H. discriminate H.
Qed.

(** C8 as stated fails for an object entry whose [url] is the empty
    string: the image is left unset, not set to that [url]. *)
Lemma C8_counterexample :
  ~ (forall tavilyResponse i result images o,
       TavilySearchResponse.results tavilyResponse !! i = Some result ->
       TavilySearchResponse.images tavilyResponse = Some images ->
       images !! i = Some (ImageObject o) ->
       exists r,
         ExaSearchResponse.results
           (transformTavilyToExaFormat tavilyResponse) !! i = Some r /\
         ExaSearchResult.image r = Some (TavilyImageResult.url o)).
Proof.
  intros H.
  destruct
    (H (response_of [result_b]
          (Some [ImageObject
                   {| TavilyImageResult.url := "";
                      TavilyImageResult.description := None |}]))
       0%nat result_b _ _ eq_refl eq_refl eq_refl) as (r & Hr & Himg).
  vm_compute in Hr. injection Hr as <-.
  vm_compute in Himg. discriminate Himg.
Qed.

(** C9 as stated fails for a raw content that is present and empty: the
    text is the content snippet, not the (empty) truncation. *)
Lemma C9_counterexample :
  ~ (forall params url m raw,
       TavilySearchResult.raw_content m = Some raw ->
       ExaSearchResult.text (contentsEntry params url m)
       = take
           (Z.to_nat (default 3000 (ContentsParams.maxCharacters params)))
           raw).
Proof.
  intros H.
  specialize (H (contents_of [url_b]) url_b result_home [] eq_refl).
  vm_compute in H. discriminate H.
Qed.

(** C2 at the two environments above. *)
Lemma C2_witness :
  exists a reqs,
    (forall w,
       fetchTavily with_key (always (http_ok (response_of [] None)))
         "/search" (searchRequest search_q) w
       = (a, after w reqs [])) /\
    (forall req, req ∈ reqs ->
       exists key,
         with_key !! "TAVILY_API_KEY" = Some key /\
         req = tavilyRequest key "/search" (searchRequest search_q)).
Proof.
  exact (C2_key_captured_at_load with_key
           (always (http_ok (response_of [] None)))
           "/search" (searchRequest search_q)).
Defined.

(** C3 at a neural search. *)
Lemma C3_witness :
  TavilySearchRequest.search_depth (searchRequest search_q) = Some advanced.
Proof.
  destruct (C3_search_depth search_q) as (_ & _ & Hadvanced & _).
  apply Hadvanced. reflexivity.
Defined.

(** C4 without a key, and with a key against a 401, a 429, a 500 with a
    body and a 503 whose body cannot be read. *)
Lemma C4_witness :
  fetchTavily no_key (always (http_status 500 "Internal Server Error" None))
    "/search" (searchRequest search_q) (world rotated_key)
  = (Js.Rejected (Js.new_Error "TAVILY_API_KEY is not configured"),
     world rotated_key) /\
  fst (fetchTavily with_key (always (http_status 401 "Unauthorized" None))
         "/search" (searchRequest search_q) (world with_key))
  = Js.Rejected (Js.new_Error "Invalid Tavily API key") /\
  fst (fetchTavily with_key
         (always (http_status 429 "Too Many Requests" None))
         "/search" (searchRequest search_q) (world with_key))
  = Js.Rejected (Js.new_Error "Tavily API usage limit exceeded") /\
  fst (fetchTavily with_key
         (always (http_status 500 "Internal Server Error" (Some "boom")))
         "/search" (searchRequest search_q) (world with_key))
  = Js.Rejected
      (Js.new_Error "Tavily API error: 500 Internal Server Error - boom") /\
  fst (fetchTavily with_key
         (always (http_status 503 "Service Unavailable" None))
         "/search" (searchRequest search_q) (world with_key))
  = Js.Rejected (Js.new_Error "Tavily API error: 503 Service Unavailable").
Proof.
  split; [|split; [|split; [|split]]].
  - apply (C4_fetchTavily_failures no_key
             (always (http_status 500 "Internal Server Error" None))).
    reflexivity.
  - destruct (C4_fetchTavily_failures with_key
                (always (http_status 401 "Unauthorized" None))
                "/search" (searchRequest search_q) (world with_key))
      as (_ & H & _).
    destruct (H "tvly-first" _ eq_refl eq_refl eq_refl) as (H401 & _).
    apply H401. reflexivity.
  - destruct (C4_fetchTavily_failures with_key
                (always (http_status 429 "Too Many Requests" None))
                "/search" (searchRequest search_q) (world with_key))
      as (_ & H & _).
    destruct (H "tvly-first" _ eq_refl eq_refl eq_refl) as (_ & H429 & _).
    apply H429. reflexivity.
  - destruct (C4_fetchTavily_failures with_key
                (always
                   (http_status 500 "Internal Server Error" (Some "boom")))
                "/search" (searchRequest search_q) (world with_key))
      as (_ & H & _).
    destruct (H "tvly-first" _ eq_refl eq_refl eq_refl) as (_ & _ & Hother).
    apply Hother; [discriminate | discriminate | reflexivity].
  - destruct (C4_fetchTavily_failures with_key
                (always (http_status 503 "Service Unavailable" None))
                "/search" (searchRequest search_q) (world with_key))
      as (_ & H & _).
    destruct (H "tvly-first" _ eq_refl eq_refl eq_refl) as (_ & _ & Hother).
    apply Hother; [discriminate | discriminate | reflexivity].
Defined.

(** C6 at the example of the specification. *)
Lemma C6_witness :
  fst (exaContentsToolForWorkflow with_key a_fails_b_succeeds new_URL
         (contents_of [url_a; url_b]) (world with_key))
  = Js.Fulfilled
      {| contents_results :=
           [contentsEntry (contents_of [url_a; url_b]) url_b result_b] |}.
Proof.
  destruct (C6_contents_partial_failure with_key a_fails_b_succeeds new_URL
              (contents_of [url_a; url_b])) as (_ & _ & Htool).
  destruct (Htool (world with_key)) as [-> _]. vm_compute. reflexivity.
Defined.

(** C7 at a news search with one included domain, an empty list of
    excluded domains, a start date and no end date. *)
Lemma C7_witness :
  TavilySearchRequest.topic (searchRequest search_q) = Some news /\
  TavilySearchRequest.include_domains (searchRequest search_q)
  = Some ["a.com"] /\
  TavilySearchRequest.start_date (searchRequest search_q)
  = Some "2024-01-01" /\
  TavilySearchRequest.end_date (searchRequest search_q) = None.
Proof.
  destruct (C7_optional_fields search_q)
    as (Htopic & _ & Hinc & _ & Hstart & _ & _ & _ & _ & _ & Hend & _).
  split; [by apply Htopic|].
  split; [by apply Hinc|].
  split; [by apply Hstart|].
  by apply Hend.
Defined.

(** C8 at the second of two results, with one image. *)
Lemma C8_witness :
  exists r,
    ExaSearchResponse.results
      (transformTavilyToExaFormat
         (response_of [result_b; result_home]
            (Some [ImageString "http://a.png"]))) !! 1%nat = Some r /\
    ExaSearchResult.image r = None.
Proof.
  exact (C8_image_by_index
           (response_of [result_b; result_home]
              (Some [ImageString "http://a.png"]))
           1%nat result_home eq_refl).
Defined.

(** C9 at a raw content of 5000 accented letters and
    [maxCharacters = 3000]. *)
Lemma C9_witness :
  ExaSearchResult.text
    (contentsEntry (contents_3000 [url_b]) url_b result_long)
  = replicate 3000 233%N /\
  length
    (ExaSearchResult.text
       (contentsEntry (contents_3000 [url_b]) url_b result_long))
  = 3000%nat /\
  exists rest,
    accented
    = (ExaSearchResult.text
         (contentsEntry (contents_3000 [url_b]) url_b result_long)
       ++ rest)%list.
Proof.
  destruct (C9_text_of_contents_entry with_key
              (always (http_ok (response_of [result_long] None))) new_URL
              (contents_3000 [url_b]) url_b (world with_key)
              (contentsEntry (contents_3000 [url_b]) url_b result_long))
    as (urlObj & response & result & HU & HO & HH & Hcut & _ & H5000).
  - reflexivity.
  - vm_compute. reflexivity.
  - vm_compute in HU. injection HU as <-.
    vm_compute in HO. injection HO as <-.
    vm_compute in HH. injection HH as <-.
    split.
    + destruct (Hcut accented) as (-> & _).
      * vm_compute. reflexivity.
      * vm_compute. discriminate.
      * vm_compute. reflexivity.
    + apply H5000.
      * vm_compute. reflexivity.
      * vm_compute. reflexivity.
      * reflexivity.
Defined.

(** C10 at a string that is not a URL, between the two URLs of the
    example. *)
Lemma C10_witness :
  fst (exaContentsToolForWorkflow with_key a_fails_b_succeeds new_URL
         (contents_of [url_a; not_a_url; url_b]) (world with_key))
  = fst (exaContentsToolForWorkflow with_key a_fails_b_succeeds new_URL
           (contents_of [url_a; url_b]) (world with_key)) /\
  fst (exaContentsTool with_key a_fails_b_succeeds new_URL
         (contents_of [url_a; not_a_url; url_b]) (world with_key))
  = fst (exaContentsTool with_key a_fails_b_succeeds new_URL
           (contents_of [url_a; url_b]) (world with_key)).
Proof.
  destruct (C10_unparseable_url_is_dropped with_key a_fails_b_succeeds
              new_URL not_a_url
              {| Js.name := "TypeError"; Js.message := "Invalid URL" |}
              None None [url_a] [url_b] eq_refl)
    as (_ & Hworkflow & Hinteractive & _).
  split; [apply Hworkflow | apply Hinteractive].
Defined.

(** X1 with a key. *)
Lemma X1_witness :
  length (tavilyCalls (API_KEY with_key) "/search" (searchRequest search_q))
  = 1%nat.
Proof.
  destruct (X1_fetchTavily_single_attempt with_key
              (always (http_ok (response_of [] None)))
              "/search" (searchRequest search_q) (world with_key))
    as (_ & _ & Hone).
  apply Hone. reflexivity.
Defined.

(** X2 at a response of status 200. *)
Lemma X2_witness :
  fst (fetchTavily with_key (always (http_ok (response_of [result_b] None)))
         "/search" (searchRequest search_q) (world with_key))
  = Js.Fulfilled (response_of [result_b] None).
Proof.
  apply X2_fetchTavily_fulfils_iff.
  exists "tvly-first", (http_ok (response_of [result_b] None)).
  repeat split; first [reflexivity | simpl; lia].
Defined.

(** X3 at the failing lookup of the example. *)
Lemma X3_witness :
  fst (fetchTavily with_key a_fails_b_succeeds "/search"
         (contentsRequest url_a "a.com") (world with_key))
  = Js.Rejected {| Js.name := "TypeError"; Js.message := "fetch failed" |}.
Proof.
  destruct (X3_fetchTavily_passes_failures_through with_key
              a_fails_b_succeeds "/search" (contentsRequest url_a "a.com")
              (world with_key) "tvly-first"
              {| Js.name := "TypeError"; Js.message := "fetch failed" |}
              eq_refl eq_refl) as (Hnetwork & _).
  apply Hnetwork. reflexivity.
Defined.

(** X6 at the category [company]. *)
Lemma X6_witness :
  TavilySearchRequest.topic (searchRequest Sample.search_company) = None.
Proof.
  destruct (X6_other_categories_have_no_effect with_key
              (always (http_ok (response_of [] None)))
              "q" (Some 3) None (Some "company") None None None None None
              ltac:(discriminate)) as (Hreq & _).
  change (searchRequest Sample.search_company)
    with (searchRequest
            (SearchParams.mk "q" (Some 3) None (Some "company") None None
               None None None)).
  rewrite Hreq. reflexivity.
Defined.

(** X8 at two URLs, one of them not a URL. *)
Lemma X8_witness :
  fst (exaContentsToolForWorkflow no_key a_fails_b_succeeds new_URL
         (contents_of [url_a; not_a_url]) (world no_key))
  = Js.Fulfilled {| contents_results := [] |} /\
  size (console
          (snd (exaContentsToolForWorkflow no_key a_fails_b_succeeds
                  new_URL (contents_of [url_a; not_a_url])
                  (world no_key))))
  = 2%nat.
Proof.
  destruct (X8_contents_without_key no_key a_fails_b_succeeds new_URL
              (contents_of [url_a; not_a_url]) (world no_key) eq_refl)
    as (Hout & _ & _ & Hlog).
  split; [exact Hout | exact Hlog].
Defined.

(** X12 at an answer whose second result is the one asked for. *)
Lemma X12_witness :
  matchingResult Sample.url_b_parsed (response_of [result_home; result_b] None)
    result_home
  ∈ [result_home; result_b].
Proof.
  destruct (X12_matchingResult_selection Sample.url_b_parsed
              (response_of [result_home; result_b] None) result_home
              eq_refl) as (Hin & _).
  exact Hin.
Defined.

(** X16 at a base URL ending in two slashes. *)
Lemma X16_witness :
  exists rest,
    "https://proxy.local/v1//" = Models.groqBaseURL Sample.proxy_env +:+ rest
    /\ Models.all_slashes rest = true.
Proof.
  destruct (X16_groqBaseURL_has_no_trailing_slash Sample.proxy_env)
    as (_ & _ & Hstrip & _).
  apply Hstrip; [vm_compute; reflexivity | reflexivity].
Defined.

(** X18 at a created, unnamed service account. *)
Lemma X18_witness :
  (String.length
     (Helm.serviceAccountName (Sample.chart_ctx "better-chatbot")) <= 63)%nat.
Proof.
  destruct (X18_names_fit_in_63_bytes (Sample.chart_ctx "better-chatbot"))
    as (_ & _ & _ & Haccount).
  apply Haccount; reflexivity.
Defined.

(** X20 at a chart name whose first 63 bytes end in two dashes. *)
Lemma X20_witness :
  Helm.name (Sample.chart_ctx (letters 61 +:+ "--tail"))
  = letters 61 +:+ "-".
Proof.
  destruct (X20_one_trailing_dash_is_trimmed
              (Sample.chart_ctx (letters 61 +:+ "--tail")) (letters 61))
    as (Hname & _).
  apply Hname. vm_compute. reflexivity.
Defined.

(** X21 at a release name that does not contain the chart's name. *)
Lemma X21_witness :
  Helm.fullname (Sample.chart_ctx "better-chatbot") = "prod-better-chatbot".
Proof.
  apply (X21_fullname_of_well_formed_names
           (Sample.chart_ctx "better-chatbot")).
  - vm_compute. lia.
  - intros t. vm_compute.
    do 20 (destruct t as [|? t]; [discriminate|]). discriminate.
Defined.

(** X22 at [maxCharacters = -5]. *)
Lemma X22_witness :
  ExaSearchResult.text
    (contentsEntry (ContentsParams.mk [url_b] (Some (-5)) None) url_b
       result_b)
  = Js.of_ascii "snippet of b".
Proof.
  destruct (X22_counts_out_of_range with_key
              (always (http_ok (response_of [] None))) new_URL)
    as (_ & _ & Hnegative).
  apply (Hnegative _ url_b result_b (-5)); [reflexivity | lia].
Defined.
